(** * combine_sources.py: a shallow embedding and its verified properties

    The script walks the working directory, selects three families of
    paths ([*.rs] outside [target], [*.pest] outside [addons],
    [Cargo.toml] outside [addons]) and writes them, one block per path,
    into [combined.txt].

    The embedding has three layers:
    - [Text]: Python [str] and [bytes] values and the codec / newline
      machinery of text-mode files that the script relies on;
    - [FS]: the directory tree rooted at the working directory, with the
      pathlib operations the script calls;
    - [Script]: the script itself, statement by statement, in a state and
      exception monad over the world (tree, working directory, console).

    Conventions.  A Python [str] is represented by the UTF-8 encoding of
    its characters, as a Rocq [string] (a sequence of 8-bit characters).
    [str.encode("utf-8")] is then the identity, and decoding with
    [errors="ignore"] keeps exactly the well-formed byte sequences.  A
    file name is the sequence of its bytes: where Python's [os.fsdecode]
    would put a lone surrogate, the representation is not well-formed
    UTF-8, and the strict encoder of [write] raises on it.

    Scope.  The path flavour is POSIX as on Linux (case-sensitive names,
    "/" separator, [EISDIR] on unlinking a directory) and the pathlib is
    that of Python 3.11.  The tree has no symbolic links.  A regular file
    is readable or not; a directory is accessible (listing and searching
    allowed) or not at all; the working directory itself may be listed,
    searched and written.  Failures for lack of resources (a full disk,
    an input/output error) are not represented. *)

From Stdlib Require Import List String Ascii NArith Bool Arith Lia.
Import ListNotations.

Local Open Scope string_scope.
Local Open Scope list_scope.

(* ================================================================= *)
(** ** Text: str, bytes, codecs and newline handling *)

Module Text.

Definition CR : ascii := "013"%char.
Definition LF : ascii := "010"%char.

(** The literal ["\r\n"] of the script. *)
Definition CRLF : string := String CR (String LF EmptyString).

(** [s * n] on Python strings. *)
Fixpoint str_mul (s : string) (n : nat) : string :=
  match n with
  | O => EmptyString
  | S n' => (s ++ str_mul s n')%string
  end.

(** [sep.join(parts)]. *)
Fixpoint join (sep : string) (parts : list string) : string :=
  match parts with
  | [] => EmptyString
  | [x] => x
  | x :: rest => (x ++ sep ++ join sep rest)%string
  end.

(** Number of (possibly overlapping) occurrences of [needle] in [hay],
    counted by start position. *)
Fixpoint occurrences (needle hay : string) : nat :=
  (if prefix needle hay then 1 else 0) +
  match hay with
  | EmptyString => 0
  | String _ hay' => occurrences needle hay'
  end.

(** *** Universal newlines on reading

    [Path.read_text] opens the file in text mode with [newline=None]:
    on input, ["\r\n"] and a lone ["\r"] are both translated to ["\n"]. *)
Fixpoint universal_newlines (s : string) : string :=
  match s with
  | EmptyString => EmptyString
  | String c s' =>
      if Ascii.eqb c CR then
        match s' with
        | String d s'' =>
            if Ascii.eqb d LF then String LF (universal_newlines s'')
            else String LF (universal_newlines s')
        | EmptyString => String LF EmptyString
        end
      else String c (universal_newlines s')
  end.

(** *** Newline translation on writing

    A text file opened with [newline=None] writes [os.linesep] for every
    ["\n"]; with [newline=""] or ["\n"] nothing is translated; with any
    other legal value every ["\n"] is written as that value. *)
Fixpoint replace_lf (nl s : string) : string :=
  match s with
  | EmptyString => EmptyString
  | String c s' =>
      if Ascii.eqb c LF then (nl ++ replace_lf nl s')%string
      else String c (replace_lf nl s')
  end.

Definition translate_out (newline : option string) (linesep s : string) : string :=
  match newline with
  | None => replace_lf linesep s
  | Some nl =>
      if String.eqb nl EmptyString then s
      else if String.eqb nl (String LF EmptyString) then s
      else replace_lf nl s
  end.

(** *** UTF-8 decoding with [errors="ignore"]

    The decoder follows CPython's: a well-formed sequence is kept; an
    invalid start byte is dropped alone; a lead byte followed by a byte
    that cannot continue it is dropped together with the continuation
    bytes already accepted, and decoding resumes at the offending byte;
    a sequence cut short by the end of the data is dropped. *)

Definition code (c : ascii) : N := N_of_ascii c.

Definition is_cont (c : ascii) : bool :=
  (128 <=? code c)%N && (code c <? 192)%N.

(** Second byte of a three-byte sequence led by [c0]: a continuation
    byte, not an overlong form (E0 80..9F) nor a surrogate (ED A0..BF). *)
Definition second_of_3 (c0 c1 : ascii) : bool :=
  is_cont c1 &&
  negb ((code c0 =? 224)%N && (code c1 <? 160)%N) &&
  negb ((code c0 =? 237)%N && (160 <=? code c1)%N).

(** Second byte of a four-byte sequence led by [c0]: a continuation
    byte, not an overlong form (F0 80..8F) nor beyond U+10FFFF
    (F4 90..BF). *)
Definition second_of_4 (c0 c1 : ascii) : bool :=
  is_cont c1 &&
  negb ((code c0 =? 240)%N && (code c1 <? 144)%N) &&
  negb ((code c0 =? 244)%N && (144 <=? code c1)%N).

Fixpoint utf8_ignore (s : string) : string :=
  match s with
  | EmptyString => EmptyString
  | String c0 r0 =>
      if (code c0 <? 128)%N then String c0 (utf8_ignore r0)
      else if (code c0 <? 194)%N then utf8_ignore r0
      else if (code c0 <? 224)%N then
        match r0 with
        | EmptyString => EmptyString
        | String c1 r1 =>
            if is_cont c1 then String c0 (String c1 (utf8_ignore r1))
            else utf8_ignore r0
        end
      else if (code c0 <? 240)%N then
        match r0 with
        | EmptyString => EmptyString
        | String c1 r1 =>
            if second_of_3 c0 c1 then
              match r1 with
              | EmptyString => EmptyString
              | String c2 r2 =>
                  if is_cont c2
                  then String c0 (String c1 (String c2 (utf8_ignore r2)))
                  else utf8_ignore r1
              end
            else utf8_ignore r0
        end
      else if (code c0 <? 245)%N then
        match r0 with
        | EmptyString => EmptyString
        | String c1 r1 =>
            if second_of_4 c0 c1 then
              match r1 with
              | EmptyString => EmptyString
              | String c2 r2 =>
                  if is_cont c2 then
                    match r2 with
                    | EmptyString => EmptyString
                    | String c3 r3 =>
                        if is_cont c3
                        then String c0 (String c1 (String c2 (String c3 (utf8_ignore r3))))
                        else utf8_ignore r2
                    end
                  else utf8_ignore r1
              end
            else utf8_ignore r0
        end
      else utf8_ignore r0
  end.

(** Well-formed UTF-8 (Unicode, table 3-7), as an independent check. *)
Fixpoint utf8_valid (s : string) : bool :=
  match s with
  | EmptyString => true
  | String c0 r0 =>
      if (code c0 <? 128)%N then utf8_valid r0
      else if (code c0 <? 194)%N then false
      else if (code c0 <? 224)%N then
        match r0 with
        | String c1 r1 => is_cont c1 && utf8_valid r1
        | _ => false
        end
      else if (code c0 <? 240)%N then
        match r0 with
        | String c1 (String c2 r2) =>
            second_of_3 c0 c1 && is_cont c2 && utf8_valid r2
        | _ => false
        end
      else if (code c0 <? 245)%N then
        match r0 with
        | String c1 (String c2 (String c3 r3)) =>
            second_of_4 c0 c1 && is_cont c2 && is_cont c3 && utf8_valid r3
        | _ => false
        end
      else false
  end.

(** [bytes.decode("utf-8", errors="ignore")] never raises. *)
Definition decode_utf8_ignore (data : string) : string := utf8_ignore data.

(** A byte sequence obtained from another by deleting bytes. *)
Inductive subseq : string -> string -> Prop :=
| subseq_nil : subseq EmptyString EmptyString
| subseq_keep c s t : subseq s t -> subseq (String c s) (String c t)
| subseq_drop c s t : subseq s t -> subseq s (String c t).

(** *** Glob patterns on one path component

    [fnmatch] with the wildcards [*] (any run of characters) and [?]
    (one character); every other character stands for itself. *)
Fixpoint fnmatch (pat : string) : string -> bool :=
  match pat with
  | EmptyString => fun s => match s with EmptyString => true | _ => false end
  | String p pat' =>
      if Ascii.eqb p "*"%char then
        fix star (s : string) : bool :=
          fnmatch pat' s ||
          match s with
          | EmptyString => false
          | String _ s' => star s'
          end
      else if Ascii.eqb p "?"%char then
        fun s => match s with
                 | EmptyString => false
                 | String _ s' => fnmatch pat' s'
                 end
      else
        fun s => match s with
                 | EmptyString => false
                 | String c s' => Ascii.eqb p c && fnmatch pat' s'
                 end
  end.

Definition is_wildcard_pattern (pat : string) : bool :=
  existsb (fun c => Ascii.eqb c "*"%char || Ascii.eqb c "?"%char || Ascii.eqb c "["%char)
          (list_ascii_of_string pat).

(** [c in s] for one character. *)
Fixpoint has_char (c : ascii) (s : string) : bool :=
  match s with
  | EmptyString => false
  | String d s' => Ascii.eqb d c || has_char c s'
  end.

(** A byte that cannot start a UTF-8 sequence: a continuation byte,
    C0, C1, or F5 and above. *)
Definition invalid_start (c : ascii) : bool :=
  ((128 <=? code c)%N && (code c <? 194)%N) || (245 <=? code c)%N.

(** Every byte of the string is a continuation byte (80..BF). *)
Fixpoint all_cont (s : string) : bool :=
  match s with
  | EmptyString => true
  | String c s' => is_cont c && all_cont s'
  end.

(** The last character of a string. *)
Fixpoint last_char (s : string) : option ascii :=
  match s with
  | EmptyString => None
  | String c EmptyString => Some c
  | String _ s' => last_char s'
  end.

(** [s.endswith(suf)], as a proposition. *)
Definition ends_with (s suf : string) : Prop := exists pre, s = (pre ++ suf)%string.

(** A pattern in which no [*] and no [?] occurs. *)
Definition literal (pat : string) : bool :=
  negb (existsb (fun c => Ascii.eqb c "*"%char || Ascii.eqb c "?"%char)
                (list_ascii_of_string pat)).

End Text.

(* ================================================================= *)
(** ** FS: the directory tree under the working directory *)

Module FS.

(** [PurePath.parts] of a path relative to the working directory. *)
Definition path := list string.

#[local] Unset Elimination Schemes.
(** A directory entry.  A directory lists its children in the order in
    which the operating system enumerates them ([os.scandir]).  A
    directory that is not [accessible] is one the process may neither
    list nor search (mode 000): nothing below it can be reached. *)
Inductive node : Type :=
| File (name : string) (readable : bool) (data : string)
| Dir (name : string) (accessible : bool) (children : list node).
#[local] Set Elimination Schemes.

(** Induction on trees: a property of a directory may rely on the
    property of each of its children. *)
Section node_induction.
Variable P : node -> Prop.
Hypothesis on_file : forall n r d, P (File n r d).
Hypothesis on_dir : forall n a kids, Forall P kids -> P (Dir n a kids).

Fixpoint node_rect_nested (x : node) : P x :=
  match x with
  | File n r d => on_file n r d
  | Dir n a kids =>
      on_dir n a kids
        ((fix all (l : list node) : Forall P l :=
            match l with
            | [] => Forall_nil P
            | k :: l' => Forall_cons k (node_rect_nested k) (all l')
            end) kids)
  end.
End node_induction.

Definition node_name (x : node) : string :=
  match x with
  | File n _ _ => n
  | Dir n _ _ => n
  end.

Definition is_dir (x : node) : bool :=
  match x with
  | Dir _ _ _ => true
  | File _ _ _ => false
  end.

Definition named (n : string) (x : node) : bool := String.eqb (node_name x) n.

Definition entry (n : string) (kids : list node) : option node :=
  find (named n) kids.

(** No child is called [n]. *)
Definition absent (n : string) (kids : list node) : Prop :=
  forallb (fun k => negb (named n k)) kids = true.

Fixpoint lookup_in (x : node) (p : path) : option node :=
  match p with
  | [] => Some x
  | n :: p' =>
      match x with
      | Dir _ true kids =>
          match entry n kids with
          | Some k => lookup_in k p'
          | None => None
          end
      | Dir _ false _ => None
      | File _ _ _ => None
      end
  end.

(** The entry that a relative path denotes for the process, if any:
    the path is followed through accessible directories only.  [root]
    lists the children of the working directory, which the process may
    list, search and write. *)
Definition lookup (root : list node) (p : path) : option node :=
  lookup_in (Dir "." true root) p.

(** The path runs into a directory that is not accessible. *)
Fixpoint denied_in (x : node) (p : path) : bool :=
  match p with
  | [] => false
  | n :: p' =>
      match x with
      | Dir _ true kids =>
          match entry n kids with
          | Some k => denied_in k p'
          | None => false
          end
      | Dir _ false _ => true
      | File _ _ _ => false
      end
  end.

Definition denied (root : list node) (p : path) : bool :=
  denied_in (Dir "." true root) p.



(** No two entries of one directory share a name. *)
Fixpoint nodupb (l : list string) : bool :=
  match l with
  | [] => true
  | x :: l' => negb (existsb (String.eqb x) l') && nodupb l'
  end.

Fixpoint wf_node (x : node) : bool :=
  match x with
  | File _ _ _ => true
  | Dir _ _ kids => nodupb (map node_name kids) && forallb wf_node kids
  end.

Definition wf (root : list node) : bool :=
  nodupb (map node_name root) && forallb wf_node root.

(** *** Recursive globbing

    [Path(".").rglob(pat)] visits the working directory and then every
    directory below it in pre-order; in each visited directory it yields
    the children whose name matches, in enumeration order.  Every kind of
    entry is yielded, directories included.  A directory that is not
    accessible is passed over in silence (pathlib swallows the
    [PermissionError]): it may itself be yielded by its parent, but
    nothing below it is. *)

Definition matches (m : string -> bool) (kids : list node) : list path :=
  map (fun k => [node_name k]) (filter (fun k => m (node_name k)) kids).

Fixpoint rglob_node (m : string -> bool) (x : node) : list path :=
  match x with
  | File _ _ _ => []
  | Dir n true kids =>
      map (cons n) (matches m kids ++ flat_map (rglob_node m) kids)
  | Dir n false _ => []
  end.

Definition rglob_from (m : string -> bool) (root : list node) : list path :=
  matches m root ++ flat_map (rglob_node m) root.

(** A pattern without wildcard is looked up by name in each directory. *)
Definition selector (pat : string) : string -> bool :=
  if Text.is_wildcard_pattern pat then Text.fnmatch pat else String.eqb pat.

(** *** Updating one directory *)

Definition parent (p : path) : path := removelast p.
Definition basename (p : path) : string := last p EmptyString.

(** [at_dir d f root]: apply [f] to the children of the directory [d]. *)
Fixpoint at_dir (d : path) (f : list node -> list node) (kids : list node) : list node :=
  match d with
  | [] => f kids
  | n :: d' =>
      map (fun k => match k with
                    | Dir m a sub => if String.eqb m n then Dir m a (at_dir d' f sub) else k
                    | File _ _ _ => k
                    end) kids
  end.

Definition remove_entry (n : string) (kids : list node) : list node :=
  filter (fun k => negb (named n k)) kids.

Definition insert_at {A : Type} (k : nat) (x : A) (l : list A) : list A :=
  firstn k l ++ x :: skipn k l.

Definition set_data (n : string) (f : string -> string) (kids : list node) : list node :=
  map (fun k => match k with
                | File m r d => if String.eqb m n then File m r (f d) else k
                | Dir _ _ _ => k
                end) kids.

Definition dir_exists (root : list node) (d : path) : bool :=
  match lookup root d with
  | Some (Dir _ _ _) => true
  | _ => false
  end.

(** A name a file system accepts: not empty and without separator. *)
Definition plain_name (n : string) : bool :=
  negb (Text.has_char "/"%char n) && negb (String.eqb n EmptyString).

(** The absolute path of an entry, as [str] prints it. *)
Definition str_abs (p : path) : string := ("/" ++ Text.join "/" p)%string.
Definition str_rel (p : path) : string :=
  match p with
  | [] => "."
  | _ => Text.join "/" p
  end.

End FS.

(* ================================================================= *)
(** ** Script: combine_sources.py *)

Module Script.
Import Text FS.

(** The host: what [os.linesep] is, and where the operating system
    places a newly created entry in the enumeration of its directory. *)
Record host : Type := { linesep : string; new_entry_pos : nat }.

Record world : Type := {
  cwd : path;            (* absolute, resolved parts of the working directory *)
  root : list node;      (* the children of the working directory *)
  console : list string  (* the lines printed so far *)
}.

Definition with_root (w : world) (r : list node) : world :=
  {| cwd := cwd w; root := r; console := console w |}.

Inductive exn : Type :=
| FileNotFoundError (p : path)
| IsADirectoryError (p : path)
| PermissionError (p : path)
| UnicodeEncodeError (text : string).

Inductive result (A : Type) : Type :=
| Return (a : A)
| Raise (e : exn).
Arguments Return {A} a.
Arguments Raise {A} e.

(** Computations that read and update the world and may raise. *)
Definition M (A : Type) : Type := world -> result A * world.

Definition ret {A : Type} (a : A) : M A := fun w => (Return a, w).

Definition bind {A B : Type} (c : M A) (k : A -> M B) : M B :=
  fun w =>
    match c w with
    | (Return a, w') => k a w'
    | (Raise e, w') => (Raise e, w')
    end.

Definition raise {A : Type} (e : exn) : M A := fun w => (Raise e, w).

Declare Scope py_scope.
Delimit Scope py_scope with py.
Notation "x <- c ;; k" := (bind c (fun x => k))
  (at level 61, c at next level, right associativity) : py_scope.
Notation "c ;; k" := (bind c (fun _ => k))
  (at level 61, right associativity) : py_scope.
Local Open Scope py_scope.

(** [for x in l: body(x)] *)
Fixpoint for_each {A : Type} (l : list A) (body : A -> M unit) : M unit :=
  match l with
  | [] => ret tt
  | x :: l' => body x ;; for_each l' body
  end.

(** *** pathlib and builtins *)

(** The error of the operating system for a path that denotes nothing:
    [EACCES] when the path runs into a directory that is not accessible,
    [ENOENT] otherwise. *)
Definition no_entry (r : list node) (p : path) : exn :=
  if denied r p then PermissionError p else FileNotFoundError p.

(** [Path.exists()]: only a missing entry counts as "does not exist". *)
Definition path_exists (p : path) : M bool :=
  fun w =>
    match lookup (root w) p with
    | Some _ => (Return true, w)
    | None => if denied (root w) p then (Raise (PermissionError p), w)
              else (Return false, w)
    end.

(** [Path.unlink()] *)
Definition unlink (p : path) : M unit :=
  fun w =>
    match lookup (root w) p with
    | None => (Raise (no_entry (root w) p), w)
    | Some (Dir _ _ _) => (Raise (IsADirectoryError p), w)
    | Some (File _ _ _) =>
        (Return tt, with_root w (at_dir (parent p) (remove_entry (basename p)) (root w)))
    end.

(** [print(s)] *)
Definition print (s : string) : M unit :=
  fun w => (Return tt, {| cwd := cwd w; root := root w; console := console w ++ [s] |}).

(** [Path(".").rglob(pat)], consumed to the end. *)
Definition rglob (pat : string) : M (list path) :=
  fun w => (Return (rglob_from (selector pat) (root w)), w).

(** [name in f.parts] *)
Definition in_parts (n : string) (f : path) : bool := existsb (String.eqb n) f.

(** [Path.resolve()] *)
Definition resolve (f : path) : M path :=
  fun w => (Return (cwd w ++ f), w).

(** [Path.read_text(encoding="utf-8", errors="ignore")] *)
Definition read_text (f : path) : M string :=
  fun w =>
    match lookup (root w) f with
    | None => (Raise (no_entry (root w) f), w)
    | Some (Dir _ _ _) => (Raise (IsADirectoryError f), w)
    | Some (File _ false _) => (Raise (PermissionError f), w)
    | Some (File _ true data) =>
        (Return (universal_newlines (decode_utf8_ignore data)), w)
    end.

(** A text file open for writing. *)
Record handle : Type := { h_path : path; h_newline : option string }.

(** [Path.open("w", encoding="utf-8", newline=nl)]: an existing file is
    truncated, a missing one is created in its directory, which the
    process may write (the working directory, for the script). *)
Definition open_w (h : host) (p : path) (nl : option string) : M handle :=
  fun w =>
    match lookup (root w) p with
    | Some (Dir _ _ _) => (Raise (IsADirectoryError p), w)
    | Some (File _ _ _) =>
        (Return {| h_path := p; h_newline := nl |},
         with_root w (at_dir (parent p) (set_data (basename p) (fun _ => EmptyString)) (root w)))
    | None =>
        if match parent p with [] => true | d => dir_exists (root w) d end then
          (Return {| h_path := p; h_newline := nl |},
           with_root w (at_dir (parent p)
                               (insert_at (new_entry_pos h) (File (basename p) true EmptyString))
                               (root w)))
        else (Raise (no_entry (root w) p), w)
    end.

(** [out.write(s)]: the text goes through the newline translation of
    the handle and is appended, UTF-8 encoded, to the file.  The encoder
    is strict: a text that holds an undecodable byte kept from a file
    name (a lone surrogate in Python, here bytes that are not well-formed
    UTF-8) raises [UnicodeEncodeError], and nothing of it is written. *)
Definition write (h : host) (out : handle) (s : string) : M unit :=
  fun w =>
    let bytes := translate_out (h_newline out) (linesep h) s in
    if utf8_valid bytes then
      (Return tt,
       with_root w (at_dir (parent (h_path out))
                           (set_data (basename (h_path out)) (fun d => (d ++ bytes)%string))
                           (root w)))
    else (Raise (UnicodeEncodeError s), w).

Definition close (out : handle) : M unit := ret tt.

(** [with p.open("w", ...) as out: body(out)]: the file is closed on
    every exit of the body, normal or exceptional. *)
Definition with_open (h : host) (p : path) (nl : option string)
           (body : handle -> M unit) : M unit :=
  fun w =>
    match open_w h p nl w with
    | (Raise e, w1) => (Raise e, w1)
    | (Return out, w1) =>
        match body out w1 with
        | (r, w2) => (r, snd (close out w2))
        end
    end.

(** [itertools.chain] of three lists. *)
Definition chain {A : Type} (a b c : list A) : list A := a ++ b ++ c.

(** *** The script *)

Definition OUTPUT : path := ["combined.txt"].

(** The body of the [for] loop. *)
Definition write_block (h : host) (out : handle) (file : path) : M unit :=
  write h out (str_mul "//" 10 ++ CRLF)%string ;;
  p <- resolve file ;;
  write h out ("# " ++ str_abs p ++ CRLF)%string ;;
  write h out (str_mul "//" 10 ++ CRLF)%string ;;
  text <- read_text file ;;
  write h out text ;;
  write h out (CRLF ++ CRLF)%string.

Definition main (h : host) : M unit :=
  present <- path_exists OUTPUT ;;
  (if present then unlink OUTPUT else ret tt) ;;
  print "[+] Collecting .gd / .tscn files..." ;;
  rs <- rglob "*.rs" ;;
  let rs_files := filter (fun f => negb (in_parts "target" f)) rs in
  pest <- rglob "*.pest" ;;
  let pest_files := filter (fun f => negb (in_parts "addons" f)) pest in
  cargo <- rglob "Cargo.toml" ;;
  let cargo_toml := filter (fun f => negb (in_parts "addons" f)) cargo in
  with_open h OUTPUT (Some EmptyString)
    (fun out => for_each (chain rs_files pest_files cargo_toml) (write_block h out)) ;;
  print ("[+] Done! Output written to " ++ str_rel OUTPUT)%string.

End Script.


(* ================================================================= *)
(** ** Run: what one run of the script selects and writes *)

Module Run.
Import Text FS Script.

(** The three lists that [main] builds, as functions of the tree. *)
Definition rs_files (r : list node) : list path :=
  filter (fun f => negb (in_parts "target" f)) (rglob_from (selector "*.rs") r).

Definition pest_files (r : list node) : list path :=
  filter (fun f => negb (in_parts "addons" f)) (rglob_from (selector "*.pest") r).

Definition cargo_toml (r : list node) : list path :=
  filter (fun f => negb (in_parts "addons" f)) (rglob_from (selector "Cargo.toml") r).

(** The paths the loop iterates over, in order. *)
Definition selected (r : list node) : list path :=
  chain (rs_files r) (pest_files r) (cargo_toml r).

(** The three selection criteria, on the parts of a relative path. *)
Definition criterion_rs (f : path) : Prop :=
  ends_with (basename f) ".rs" /\ ~ In "target" f.

Definition criterion_pest (f : path) : Prop :=
  ends_with (basename f) ".pest" /\ ~ In "addons" f.

Definition criterion_cargo (f : path) : Prop :=
  basename f = "Cargo.toml" /\ ~ In "addons" f.

Definition banner : string := str_mul "//" 10.

(** The three lines written before the content of [f]. *)
Definition header (cwd f : path) : string :=
  (banner ++ CRLF ++ "# " ++ str_abs (cwd ++ f)%list ++ CRLF ++ banner ++ CRLF)%string.

(** Everything one iteration of the loop writes. *)
Definition block (cwd f : path) (text : string) : string :=
  (header cwd f ++ text ++ CRLF ++ CRLF)%string.

(** The outcome of [read_text] on a tree. *)
Definition read_at (r : list node) (f : path) : result string :=
  match lookup r f with
  | None => Raise (no_entry r f)
  | Some (Dir _ _ _) => Raise (IsADirectoryError f)
  | Some (File _ false _) => Raise (PermissionError f)
  | Some (File _ true data) => Return (universal_newlines (decode_utf8_ignore data))
  end.

(** The second line of a header, as the script passes it to [write]. *)
Definition path_line (cwd f : path) : string :=
  ("# " ++ str_abs (cwd ++ f)%list ++ CRLF)%string.

(** What the loop writes for the list [l], and the exception that stops
    it, if any.  When the path line of a path cannot be encoded, the
    first banner line of its block is already written; when its
    [read_text] raises, its whole header is. *)
Fixpoint emit (cwd : path) (r : list node) (l : list path) : string * option exn :=
  match l with
  | [] => (EmptyString, None)
  | f :: l' =>
      if utf8_valid (path_line cwd f) then
        match read_at r f with
        | Raise e => (header cwd f, Some e)
        | Return text =>
            let (rest, stop) := emit cwd r l' in
            ((block cwd f text ++ rest)%string, stop)
        end
      else ((banner ++ CRLF)%string, Some (UnicodeEncodeError (path_line cwd f)))
  end.

(** The text of a readable regular file, as [read_text] returns it. *)
Definition text_of (r : list node) (f : path) : option string :=
  match read_at r f with
  | Return text => Some text
  | Raise _ => None
  end.

Definition content_of (r : list node) (f : path) : string :=
  match text_of r f with
  | Some text => text
  | None => EmptyString
  end.

(** The blocks of the paths of [l], one after the other. *)
Fixpoint blocks (cwd : path) (r : list node) (l : list path) : string :=
  match l with
  | [] => EmptyString
  | f :: l' => (block cwd f (content_of r f) ++ blocks cwd r l')%string
  end.

Definition readable_file (r : list node) (f : path) : Prop :=
  exists n data, lookup r f = Some (File n true data).

(** The path line of [f] is text that the encoder accepts. *)
Definition encodable (cwd f : path) : Prop :=
  utf8_valid (path_line cwd f) = true.

(** The bytes of [combined.txt], when it is a regular file. *)
Definition output (w : world) : option string :=
  match lookup (root w) OUTPUT with
  | Some (File _ _ data) => Some data
  | _ => None
  end.

(** The tree without the top-level entry [combined.txt]. *)
Definition sources (r : list node) : list node := remove_entry "combined.txt" r.

(** An absolute path in the words of the specification: every part of
    the resolved path, from the file-system root down, behind a ["/"]. *)
Fixpoint slash_joined (parts : list string) : string :=
  match parts with
  | [] => EmptyString
  | x :: rest => String "/" (x ++ slash_joined rest)
  end.

(** A block in the words of the specification, character by character:
    twenty ['/'], carriage return (13) and line feed (10); ["# "], the
    absolute path, 13 and 10; twenty ['/'], 13 and 10; the text; 13, 10,
    13 and 10. *)
Definition spelled_block (abs text : string) : string :=
  ("////////////////////" ++ String "013" (String "010" "") ++
   String "#" (String " " abs) ++ String "013" (String "010" "") ++
   "////////////////////" ++ String "013" (String "010" "") ++
   text ++
   String "013" (String "010" (String "013" (String "010" ""))))%string.


(** The handle the script writes through, and the world while the loop
    runs: [combined.txt] holds [written], the other entries are [base]. *)
Definition out_handle : handle := {| h_path := OUTPUT; h_newline := Some EmptyString |}.

Definition during (c : path) (con : list string) (k : nat) (written : string)
           (base : list node) : world :=
  {| cwd := c; root := insert_at k (File "combined.txt" true written) base; console := con |}.

Definition finish (stop : option exn) : result unit :=
  match stop with
  | None => Return tt
  | Some e => Raise e
  end.

(** The statements of [main] that follow the removal of the old output. *)
Definition after_unlink (h : host) : M unit :=
  bind (print "[+] Collecting .gd / .tscn files...") (fun _ =>
  bind (rglob "*.rs") (fun rs =>
  bind (rglob "*.pest") (fun pest =>
  bind (rglob "Cargo.toml") (fun cargo =>
  bind (with_open h OUTPUT (Some EmptyString)
          (fun out => for_each
             (chain (filter (fun f => negb (in_parts "target" f)) rs)
                    (filter (fun f => negb (in_parts "addons" f)) pest)
                    (filter (fun f => negb (in_parts "addons" f)) cargo))
             (write_block h out)))
       (fun _ => print ("[+] Done! Output written to " ++ str_rel OUTPUT)%string))))).

Definition msg_start : string := "[+] Collecting .gd / .tscn files...".
Definition msg_done : string := "[+] Done! Output written to combined.txt".

(** The lines a run prints, given the exception that stopped its loop. *)
Definition lines_after (stop : option exn) : list string :=
  match stop with
  | None => [msg_start; msg_done]
  | Some _ => [msg_start]
  end.

End Run.

(* ================================================================= *)
(** ** Example hosts and trees *)

Module Examples.
Import Text FS Script Run.

Definition posix : host := {| linesep := String LF EmptyString; new_entry_pos := 0 |}.
Definition windows_like : host := {| linesep := CRLF; new_entry_pos := 2 |}.

Definition dquote : ascii := "034"%char.

(** The tree of the specification's example, with two excluded
    subtrees added. *)
Definition project : world :=
  {| cwd := ["home"; "dev"; "proj"];
     root :=
       [ Dir "src" true [File "main.rs" true "fn main() {}"];
         Dir "grammar" true [File "expr.pest" true "expr = { ... }"];
         File "Cargo.toml" true
              ("[package]" ++ String LF ("name = " ++ String dquote ("x" ++ String dquote "")))%string;
         Dir "target" true [Dir "debug" true [File "build.rs" true "fn main() { panic!() }"]];
         Dir "addons" true [File "gd.pest" true "x = { y }"; File "Cargo.toml" true "[workspace]"];
         File "combined.txt" true "left over from an earlier run" ];
     console := [] |}.

(** Two sources with the same text. *)
Definition twins : world :=
  {| cwd := ["w"];
     root := [File "a.rs" true "fn main() {}"; File "b.rs" true "fn main() {}"];
     console := [] |}.

(** A source with a CR+LF line terminator. *)
Definition dos_source : world :=
  {| cwd := ["w"];
     root := [File "a.rs" true ("a" ++ CRLF ++ "b")%string];
     console := [] |}.

(** A directory whose name matches [*.rs], and no regular file at all. *)
Definition crate_dir : world :=
  {| cwd := ["w"]; root := [Dir "a.rs" true []]; console := [] |}.

(** A source with one byte (FF) that is not UTF-8. *)
Definition garbled : world :=
  {| cwd := ["w"];
     root := [File "lib.rs" true ("ab" ++ String "255"%char "cd")%string];
     console := [] |}.

(** Nothing to collect. *)
Definition docs_only : world :=
  {| cwd := ["w"];
     root := [File "README.md" true "hello"; File "combined.txt" true "old"];
     console := ["earlier line"] |}.

(** A readable source, an unreadable one, and one more behind it. *)
Definition locked : world :=
  {| cwd := ["w"];
     root := [File "a.rs" true "x"; File "b.rs" false "y"; File "c.rs" true "z"];
     console := [] |}.

(** A directory stands where the output file should go. *)
Definition blocked : world :=
  {| cwd := ["w"];
     root := [Dir "combined.txt" true [File "old.rs" true "x"]; File "a.rs" true "y"];
     console := ["earlier line"] |}.

(** A vendored source in a directory the process may not enter. *)
Definition sealed : world :=
  {| cwd := ["w"];
     root := [Dir "vendor" false [File "lib.rs" true "pub fn vendored() {}"];
              File "main.rs" true "fn main() {}"];
     console := [] |}.

(** A source whose name holds a byte (FF) that is not UTF-8, between two
    ordinary sources. *)
Definition odd_name : world :=
  {| cwd := ["w"];
     root := [File "a.rs" true "x"; File (String "255"%char ".rs") true "y";
              File "c.rs" true "z"];
     console := [] |}.

End Examples.

(* ================================================================= *)
(** ** Properties of the text layer *)

Module TextFacts.
Import Text.

(** *** The text layer on small inputs *)

Example fnmatch_main_rs : fnmatch "*.rs" "main.rs" = true.
Proof. reflexivity. Qed.

Example fnmatch_hidden_rs : fnmatch "*.rs" ".rs" = true.
Proof. reflexivity. Qed.

Example fnmatch_rs_bak : fnmatch "*.rs" "main.rs.bak" = false.
Proof. reflexivity. Qed.

Example fnmatch_upper_rs : fnmatch "*.rs" "MAIN.RS" = false.
Proof. reflexivity. Qed.

(** "e acute" (C3 A9) is kept; a lone continuation byte (A9) is dropped. *)
Example utf8_ignore_two_bytes :
  utf8_ignore (String "195" (String "169" "x")) = String "195" (String "169" "x") /\
  utf8_ignore (String "169" "x") = "x".
Proof. split; reflexivity. Qed.

(** A euro sign cut after two bytes (E2 82) and followed by "A": the two
    bytes are dropped and decoding resumes at "A"; at the end of the
    data the cut sequence is dropped as well. *)
Example utf8_ignore_cut_sequence :
  utf8_ignore (String "226" (String "130" "A")) = "A" /\
  utf8_ignore (String "A" (String "226" (String "130" ""))) = "A".
Proof. split; reflexivity. Qed.

(** An overlong form (C0 80) and a surrogate (ED A0 80) are dropped. *)
Example utf8_ignore_overlong_surrogate :
  utf8_ignore (String "192" (String "128" "a")) = "a" /\
  utf8_ignore (String "237" (String "160" (String "128" "a"))) = "a".
Proof. split; reflexivity. Qed.

Example universal_newlines_mixed :
  universal_newlines ("a" ++ CRLF ++ "b" ++ String CR "c" ++ String LF "d") =
  ("a" ++ String LF "b" ++ String LF "c" ++ String LF "d")%string.
Proof. reflexivity. Qed.

(** With the default [newline=None] a Windows host would write CR CR LF
    for the script's ["\r\n"]; with [newline=""] it writes CR LF. *)
Example translate_out_windows :
  translate_out None CRLF CRLF = String CR CRLF /\
  translate_out (Some EmptyString) CRLF CRLF = CRLF.
Proof. split; reflexivity. Qed.

Lemma sapp_assoc (a b c : string) : ((a ++ b) ++ c = a ++ (b ++ c))%string.
Proof. induction a as [|x a IH]; simpl; [reflexivity | now rewrite IH]. Qed.

Lemma sapp_nil_r (a : string) : (a ++ "" = a)%string.
Proof. induction a as [|x a IH]; simpl; [reflexivity | now rewrite IH]. Qed.

Lemma sapp_length (a b : string) :
  String.length (a ++ b) = String.length a + String.length b.
Proof. induction a as [|x a IH]; simpl; [reflexivity | now rewrite IH]. Qed.




(** *** Newlines *)

Lemma strong_string_ind (P : string -> Prop) :
  (forall s, (forall t, String.length t < String.length s -> P t) -> P s) ->
  forall s, P s.
Proof.
  intros step s.
  assert (H : forall n t, String.length t < n -> P t).
  { induction n as [|n IH]; intros t Ht; [lia|].
    apply step. intros u Hu. apply IH. lia. }
  apply (H (S (String.length s))). lia.
Qed.

(** After universal-newline translation no carriage return is left. *)
Lemma universal_newlines_no_CR (s : string) :
  has_char CR (universal_newlines s) = false.
Proof.
  induction s as [s IH] using strong_string_ind.
  destruct s as [|c s']; [reflexivity|].
  cbn [universal_newlines].
  destruct (Ascii.eqb c CR) eqn:Ec.
  - destruct s' as [|d s'']; [reflexivity|].
    destruct (Ascii.eqb d LF); cbn [has_char]; rewrite IH by (simpl; lia); reflexivity.
  - cbn [has_char]. rewrite Ec, IH by (simpl; lia). reflexivity.
Qed.

(** A text without carriage return is read unchanged. *)
Lemma universal_newlines_id (s : string) :
  has_char CR s = false -> universal_newlines s = s.
Proof.
  induction s as [|c s' IH]; [reflexivity|].
  cbn [has_char universal_newlines]. intros H.
  apply orb_false_iff in H. destruct H as [Hc Hs].
  rewrite Hc, IH by assumption. reflexivity.
Qed.

(** [newline=""] switches the translation off, whatever [os.linesep] is. *)
Lemma translate_out_empty (linesep s : string) :
  translate_out (Some EmptyString) linesep s = s.
Proof. reflexivity. Qed.

(** *** UTF-8 *)

Ltac by_length IH := apply IH; simpl; lia.

Lemma utf8_ignore_valid (s : string) : utf8_valid (utf8_ignore s) = true.
Proof.
  induction s as [s IH] using strong_string_ind.
  destruct s as [|c0 r0]; [reflexivity|].
  cbn [utf8_ignore].
  destruct (code c0 <? 128)%N eqn:E1.
  { cbn [utf8_valid]. rewrite E1. by_length IH. }
  destruct (code c0 <? 194)%N eqn:E2; [by_length IH|].
  destruct (code c0 <? 224)%N eqn:E3.
  { destruct r0 as [|c1 r1]; [reflexivity|].
    destruct (is_cont c1) eqn:C1; [|by_length IH].
    cbn [utf8_valid]. rewrite E1, E2, E3, C1. by_length IH. }
  destruct (code c0 <? 240)%N eqn:E4.
  { destruct r0 as [|c1 r1]; [reflexivity|].
    destruct (second_of_3 c0 c1) eqn:C1; [|by_length IH].
    destruct r1 as [|c2 r2]; [reflexivity|].
    destruct (is_cont c2) eqn:C2; [|by_length IH].
    cbn [utf8_valid]. rewrite E1, E2, E3, E4, C1, C2. by_length IH. }
  destruct (code c0 <? 245)%N eqn:E5; [|by_length IH].
  destruct r0 as [|c1 r1]; [reflexivity|].
  destruct (second_of_4 c0 c1) eqn:C1; [|by_length IH].
  destruct r1 as [|c2 r2]; [reflexivity|].
  destruct (is_cont c2) eqn:C2; [|by_length IH].
  destruct r2 as [|c3 r3]; [reflexivity|].
  destruct (is_cont c3) eqn:C3; [|by_length IH].
  cbn [utf8_valid]. rewrite E1, E2, E3, E4, E5, C1, C2, C3. by_length IH.
Qed.

Lemma subseq_refl (s : string) : subseq s s.
Proof. induction s; constructor; assumption. Qed.

Lemma subseq_nil_l (s : string) : subseq EmptyString s.
Proof. induction s; constructor; assumption. Qed.

Lemma utf8_ignore_subseq (s : string) : subseq (utf8_ignore s) s.
Proof.
  induction s as [s IH] using strong_string_ind.
  destruct s as [|c0 r0]; [constructor|].
  cbn [utf8_ignore].
  destruct (code c0 <? 128)%N; [constructor; by_length IH|].
  destruct (code c0 <? 194)%N; [constructor; by_length IH|].
  destruct (code c0 <? 224)%N.
  { destruct r0 as [|c1 r1]; [apply subseq_nil_l|].
    destruct (is_cont c1); [do 2 constructor|constructor]; by_length IH. }
  destruct (code c0 <? 240)%N.
  { destruct r0 as [|c1 r1]; [apply subseq_nil_l|].
    destruct (second_of_3 c0 c1); [|constructor; by_length IH].
    destruct r1 as [|c2 r2]; [apply subseq_nil_l|].
    destruct (is_cont c2); [do 3 constructor|do 2 constructor]; by_length IH. }
  destruct (code c0 <? 245)%N; [|constructor; by_length IH].
  destruct r0 as [|c1 r1]; [apply subseq_nil_l|].
  destruct (second_of_4 c0 c1); [|constructor; by_length IH].
  destruct r1 as [|c2 r2]; [apply subseq_nil_l|].
  destruct (is_cont c2); [|do 2 constructor; by_length IH].
  destruct r2 as [|c3 r3]; [apply subseq_nil_l|].
  destruct (is_cont c3); [do 4 constructor|do 3 constructor]; by_length IH.
Qed.

(** Decoding keeps a well-formed prefix and goes on behind it. *)
Lemma utf8_ignore_app (v s : string) :
  utf8_valid v = true -> utf8_ignore (v ++ s) = (v ++ utf8_ignore s)%string.
Proof.
  induction v as [v IH] using strong_string_ind.
  destruct v as [|c0 r0]; [reflexivity|].
  cbn [utf8_valid]. cbn [append]. cbn [utf8_ignore].
  destruct (code c0 <? 128)%N.
  { intros V. f_equal. apply IH; [simpl; lia | exact V]. }
  destruct (code c0 <? 194)%N; [discriminate|].
  destruct (code c0 <? 224)%N.
  { destruct r0 as [|c1 r1]; [discriminate|]. cbn [append].
    destruct (is_cont c1); [|discriminate]. intros V.
    do 2 f_equal. apply IH; [simpl; lia | exact V]. }
  destruct (code c0 <? 240)%N.
  { destruct r0 as [|c1 [|c2 r2]]; try discriminate. cbn [append].
    destruct (second_of_3 c0 c1); [|discriminate].
    destruct (is_cont c2); [|discriminate]. intros V.
    do 3 f_equal. apply IH; [simpl; lia | exact V]. }
  destruct (code c0 <? 245)%N; [|discriminate].
  destruct r0 as [|c1 [|c2 [|c3 r3]]]; try discriminate. cbn [append].
  destruct (second_of_4 c0 c1); [|discriminate].
  destruct (is_cont c2); [|discriminate].
  destruct (is_cont c3); [|discriminate]. intros V.
  do 4 f_equal. apply IH; [simpl; lia | exact V].
Qed.

(** Well-formed data is decoded to itself. *)
Lemma utf8_ignore_id (s : string) : utf8_valid s = true -> utf8_ignore s = s.
Proof.
  intros V. rewrite <- (sapp_nil_r s) at 1.
  rewrite (utf8_ignore_app s EmptyString V). apply sapp_nil_r.
Qed.

Lemma utf8_ignore_invalid_start (c : ascii) (s : string) :
  invalid_start c = true -> utf8_ignore (String c s) = utf8_ignore s.
Proof.
  unfold invalid_start. intros H.
  assert (R : (128 <= code c < 194 \/ 245 <= code c)%N).
  { apply orb_true_iff in H. destruct H as [H|H]; [left|right].
    - apply andb_true_iff in H. destruct H as [H1 H2].
      apply N.leb_le in H1. apply N.ltb_lt in H2. lia.
    - now apply N.leb_le in H. }
  clear H. cbn [utf8_ignore].
  repeat match goal with
         | |- context [(?a <? ?b)%N] => destruct (N.ltb_spec a b)
         end; try reflexivity; lia.
Qed.

(** *** Glob patterns *)

Lemma fnmatch_literal (pat s : string) :
  literal pat = true -> fnmatch pat s = String.eqb pat s.
Proof.
  unfold literal. revert s. induction pat as [|p pat IH]; intros s H.
  - now destruct s.
  - cbn [list_ascii_of_string existsb] in H.
    apply negb_true_iff, orb_false_iff in H. destruct H as [Hp Hr].
    apply orb_false_iff in Hp. destruct Hp as [Hs Hq].
    cbn [fnmatch]. rewrite Hs, Hq.
    destruct s as [|c s]; [reflexivity|]. cbn [String.eqb].
    rewrite IH by now apply negb_true_iff.
    reflexivity.
Qed.

Lemma fnmatch_star (pat s : string) :
  literal pat = true ->
  fnmatch (String "*" pat) s = true <-> ends_with s pat.
Proof.
  intros L. cbn [fnmatch]. rewrite Ascii.eqb_refl.
  induction s as [|c s IH].
  - rewrite fnmatch_literal by exact L. rewrite orb_false_r, String.eqb_eq.
    split.
    + intros ->. now exists EmptyString.
    + intros [pre E]. destruct pre; [exact (eq_sym E) | discriminate].
  - rewrite orb_true_iff, IH, fnmatch_literal, String.eqb_eq by exact L.
    split.
    + intros [E | [pre E]].
      * exists EmptyString. now rewrite E.
      * exists (String c pre). now rewrite E.
    + intros [[|d pre] E].
      * left. now rewrite E.
      * right. exists pre. simpl in E. now injection E.
Qed.

(** *** Well-formed text stays well-formed *)

Lemma utf8_valid_app (a b : string) :
  utf8_valid a = true -> utf8_valid b = true -> utf8_valid (a ++ b) = true.
Proof.
  intros Ha Hb. pose proof (utf8_ignore_valid (a ++ b)) as V.
  now rewrite (utf8_ignore_app a b Ha), (utf8_ignore_id b Hb) in V.
Qed.

Lemma high_not_CR (c : ascii) : (code c <? 128)%N = false -> Ascii.eqb c CR = false.
Proof.
  intros H. destruct (Ascii.eqb c CR) eqn:E; [|reflexivity].
  apply Ascii.eqb_eq in E. subst c. vm_compute in H. discriminate.
Qed.

Lemma cont_high (c : ascii) : is_cont c = true -> (code c <? 128)%N = false.
Proof.
  unfold is_cont. intros H. apply andb_true_iff in H. destruct H as [H _].
  apply N.leb_le in H. apply N.ltb_ge. exact H.
Qed.

Lemma second_of_3_cont (c0 c1 : ascii) : second_of_3 c0 c1 = true -> is_cont c1 = true.
Proof.
  unfold second_of_3. intros H. apply andb_true_iff in H. destruct H as [H _].
  apply andb_true_iff in H. now destruct H.
Qed.

Lemma second_of_4_cont (c0 c1 : ascii) : second_of_4 c0 c1 = true -> is_cont c1 = true.
Proof.
  unfold second_of_4. intros H. apply andb_true_iff in H. destruct H as [H _].
  apply andb_true_iff in H. now destruct H.
Qed.

Lemma universal_newlines_high (c : ascii) (s : string) :
  (code c <? 128)%N = false ->
  universal_newlines (String c s) = String c (universal_newlines s).
Proof. intros H. cbn [universal_newlines]. now rewrite (high_not_CR c H). Qed.

(** Universal-newline translation keeps well-formed text well-formed:
    CR and LF are single-byte characters. *)
Lemma universal_newlines_valid (s : string) :
  utf8_valid s = true -> utf8_valid (universal_newlines s) = true.
Proof.
  induction s as [s IH] using strong_string_ind.
  destruct s as [|c0 r0]; [reflexivity|].
  cbn [utf8_valid].
  destruct (code c0 <? 128)%N eqn:E1.
  { intros V. cbn [universal_newlines].
    destruct (Ascii.eqb c0 CR) eqn:Ec.
    - destruct r0 as [|d r1]; [reflexivity|].
      destruct (Ascii.eqb d LF) eqn:Ed.
      + apply Ascii.eqb_eq in Ed. subst d.
        change (utf8_valid (String LF r1)) with (utf8_valid r1) in V.
        change (utf8_valid (String LF (universal_newlines r1)))
          with (utf8_valid (universal_newlines r1)).
        apply IH; [simpl; lia | exact V].
      + change (utf8_valid (String LF (universal_newlines (String d r1))))
          with (utf8_valid (universal_newlines (String d r1))).
        apply IH; [simpl; lia | exact V].
    - cbn [utf8_valid]. rewrite E1. apply IH; [simpl; lia | exact V]. }
  destruct (code c0 <? 194)%N eqn:E2; [discriminate|].
  destruct (code c0 <? 224)%N eqn:E3.
  { destruct r0 as [|c1 r1]; [discriminate|]. intros V.
    apply andb_true_iff in V. destruct V as [C1 V].
    rewrite (universal_newlines_high c0 _ E1), (universal_newlines_high c1 _ (cont_high _ C1)).
    cbn [utf8_valid]. rewrite E1, E2, E3, C1. apply IH; [simpl; lia | exact V]. }
  destruct (code c0 <? 240)%N eqn:E4.
  { destruct r0 as [|c1 [|c2 r2]]; try discriminate. intros V.
    apply andb_true_iff in V. destruct V as [V V2].
    apply andb_true_iff in V. destruct V as [C1 C2].
    rewrite (universal_newlines_high c0 _ E1),
            (universal_newlines_high c1 _ (cont_high _ (second_of_3_cont _ _ C1))),
            (universal_newlines_high c2 _ (cont_high _ C2)).
    cbn [utf8_valid]. rewrite E1, E2, E3, E4, C1, C2. apply IH; [simpl; lia | exact V2]. }
  destruct (code c0 <? 245)%N eqn:E5; [|discriminate].
  destruct r0 as [|c1 [|c2 [|c3 r3]]]; try discriminate. intros V.
  apply andb_true_iff in V. destruct V as [V V3].
  apply andb_true_iff in V. destruct V as [V C3].
  apply andb_true_iff in V. destruct V as [C1 C2].
  rewrite (universal_newlines_high c0 _ E1),
          (universal_newlines_high c1 _ (cont_high _ (second_of_4_cont _ _ C1))),
          (universal_newlines_high c2 _ (cont_high _ C2)),
          (universal_newlines_high c3 _ (cont_high _ C3)).
  cbn [utf8_valid]. rewrite E1, E2, E3, E4, E5, C1, C2, C3.
  apply IH; [simpl; lia | exact V3].
Qed.

(** *** Where decoding starts afresh *)

Lemma not_cont_second_of_3 (c0 c : ascii) : is_cont c = false -> second_of_3 c0 c = false.
Proof. intros H. unfold second_of_3. now rewrite H. Qed.

Lemma not_cont_second_of_4 (c0 c : ascii) : is_cont c = false -> second_of_4 c0 c = false.
Proof. intros H. unfold second_of_4. now rewrite H. Qed.

(** Decoding starts afresh at every byte that is not a continuation
    byte: what comes before it is decoded on its own. *)
Lemma utf8_ignore_resync (c : ascii) (a s : string) :
  is_cont c = false ->
  utf8_ignore (a ++ String c s) = (utf8_ignore a ++ utf8_ignore (String c s))%string.
Proof.
  intros NC.
  pose proof (not_cont_second_of_3) as N3. pose proof (not_cont_second_of_4) as N4.
  remember (utf8_ignore (String c s)) as T eqn:ET.
  induction a as [a IH] using strong_string_ind.
  destruct a as [|c0 r0]; [now rewrite ET|].
  cbn [append]. cbn [utf8_ignore].
  destruct (code c0 <? 128)%N.
  { cbn [append]. f_equal. apply IH. simpl; lia. }
  destruct (code c0 <? 194)%N; [apply IH; simpl; lia|].
  destruct (code c0 <? 224)%N.
  { destruct r0 as [|c1 r1]; cbn [append].
    - now rewrite NC, <- ET.
    - destruct (is_cont c1).
      + cbn [append]. do 2 f_equal. apply IH. simpl; lia.
      + apply (IH (String c1 r1)). simpl; lia. }
  destruct (code c0 <? 240)%N.
  { destruct r0 as [|c1 r1]; cbn [append].
    - now rewrite (N3 c0 c NC), <- ET.
    - destruct (second_of_3 c0 c1); [|apply (IH (String c1 r1)); simpl; lia].
      destruct r1 as [|c2 r2]; cbn [append].
      + now rewrite NC, <- ET.
      + destruct (is_cont c2).
        * cbn [append]. do 3 f_equal. apply IH. simpl; lia.
        * apply (IH (String c2 r2)). simpl; lia. }
  destruct (code c0 <? 245)%N; [|apply IH; simpl; lia].
  destruct r0 as [|c1 r1]; cbn [append].
  - now rewrite (N4 c0 c NC), <- ET.
  - destruct (second_of_4 c0 c1); [|apply (IH (String c1 r1)); simpl; lia].
    destruct r1 as [|c2 r2]; cbn [append].
    + now rewrite NC, <- ET.
    + destruct (is_cont c2); [|apply (IH (String c2 r2)); simpl; lia].
      destruct r2 as [|c3 r3]; cbn [append].
      * now rewrite NC, <- ET.
      * destruct (is_cont c3).
        -- cbn [append]. do 4 f_equal. apply IH. simpl; lia.
        -- apply (IH (String c3 r3)). simpl; lia.
Qed.

(** Continuation bytes that continue nothing are dropped. *)
Lemma utf8_ignore_all_cont (t : string) : all_cont t = true -> utf8_ignore t = EmptyString.
Proof.
  induction t as [|c t IH]; [reflexivity|].
  cbn [all_cont]. intros H. apply andb_true_iff in H. destruct H as [C A].
  rewrite utf8_ignore_invalid_start; [exact (IH A)|].
  unfold invalid_start. unfold is_cont in C.
  apply andb_true_iff in C. destruct C as [C1 C2]. rewrite C1. cbn [andb].
  apply N.ltb_lt in C2. apply orb_true_iff. left. apply N.ltb_lt. lia.
Qed.

(** A byte followed by continuation bytes of which no prefix is a
    well-formed sequence is dropped with them. *)
Lemma utf8_ignore_no_sequence (b0 : ascii) (t : string) :
  all_cont t = true ->
  (forall k, 1 <= k -> utf8_valid (substring 0 k (String b0 t)) = false) ->
  utf8_ignore (String b0 t) = EmptyString.
Proof.
  intros A N.
  pose proof (N 1 (le_n 1)) as N1. pose proof (N 2 (le_S _ _ (le_n 1))) as N2.
  assert (N3 : utf8_valid (substring 0 3 (String b0 t)) = false) by (apply N; lia).
  assert (N4 : utf8_valid (substring 0 4 (String b0 t)) = false) by (apply N; lia).
  clear N. cbn [utf8_ignore].
  destruct (code b0 <? 128)%N eqn:E1.
  { exfalso. cbn [substring utf8_valid] in N1. rewrite E1 in N1.
    destruct t; cbn [substring utf8_valid] in N1; discriminate. }
  destruct (code b0 <? 194)%N eqn:E2; [exact (utf8_ignore_all_cont t A)|].
  destruct (code b0 <? 224)%N eqn:E3.
  { destruct t as [|c1 t1]; [reflexivity|].
    cbn [all_cont] in A. apply andb_true_iff in A. destruct A as [C1 A1].
    exfalso. cbn [substring utf8_valid] in N2. rewrite E1, E2, E3, C1 in N2.
    destruct t1; cbn [substring utf8_valid] in N2; discriminate. }
  destruct (code b0 <? 240)%N eqn:E4.
  { destruct t as [|c1 t1]; [reflexivity|].
    pose proof A as A0.
    cbn [all_cont] in A. apply andb_true_iff in A. destruct A as [C1 A1].
    destruct (second_of_3 b0 c1) eqn:S1; [|exact (utf8_ignore_all_cont _ A0)].
    destruct t1 as [|c2 t2]; [reflexivity|].
    cbn [all_cont] in A1. apply andb_true_iff in A1. destruct A1 as [C2 A2].
    exfalso. cbn [substring utf8_valid] in N3. rewrite E1, E2, E3, E4, S1, C2 in N3.
    destruct t2; cbn [substring utf8_valid] in N3; discriminate. }
  destruct (code b0 <? 245)%N eqn:E5; [|exact (utf8_ignore_all_cont t A)].
  destruct t as [|c1 t1]; [reflexivity|].
  pose proof A as A0.
  cbn [all_cont] in A. apply andb_true_iff in A. destruct A as [C1 A1].
  destruct (second_of_4 b0 c1) eqn:S1; [|exact (utf8_ignore_all_cont _ A0)].
  destruct t1 as [|c2 t2]; [reflexivity|].
  cbn [all_cont] in A1. apply andb_true_iff in A1. destruct A1 as [C2 A2].
  rewrite C2.
  destruct t2 as [|c3 t3]; [reflexivity|].
  cbn [all_cont] in A2. apply andb_true_iff in A2. destruct A2 as [C3 A3].
  exfalso. cbn [substring utf8_valid] in N4. rewrite E1, E2, E3, E4, E5, S1, C2, C3 in N4.
  destruct t3; cbn [substring utf8_valid] in N4; discriminate.
Qed.

End TextFacts.

(* ================================================================= *)
(** ** Properties of the tree operations *)

Module FSFacts.
Import Text FS TextFacts.

Lemma nodupb_NoDup (l : list string) : nodupb l = true <-> NoDup l.
Proof.
  induction l as [|x l IH]; simpl.
  - split; [constructor | reflexivity].
  - rewrite andb_true_iff, negb_true_iff, IH, NoDup_cons_iff.
    assert (E : existsb (String.eqb x) l = false <-> ~ In x l).
    { split.
      - intros H Hin. assert (T : existsb (String.eqb x) l = true).
        { apply existsb_exists. exists x. split; [exact Hin | apply String.eqb_refl]. }
        congruence.
      - intros H. destruct (existsb (String.eqb x) l) eqn:Ex; [|reflexivity].
        apply existsb_exists in Ex. destruct Ex as [y [Hy Hxy]].
        apply String.eqb_eq in Hxy. subst y. contradiction. }
    rewrite E. reflexivity.
Qed.

Lemma named_true (n : string) (k : node) : named n k = true <-> node_name k = n.
Proof. unfold named. apply String.eqb_eq. Qed.

(** *** One directory listing *)

Lemma insert_at_0 {A} (x : A) (l : list A) : insert_at 0 x l = x :: l.
Proof. reflexivity. Qed.

Lemma insert_at_nil {A} (k : nat) (x : A) : insert_at k x [] = [x].
Proof. unfold insert_at. now rewrite firstn_nil, skipn_nil. Qed.

Lemma insert_at_S {A} (k : nat) (x a : A) (l : list A) :
  insert_at (S k) x (a :: l) = a :: insert_at k x l.
Proof. reflexivity. Qed.

(** Induction along the position at which an entry is inserted. *)
Lemma insert_at_ind {A} (x : A) (Q : list A -> list A -> Prop) :
  (forall l, Q l (x :: l)) ->
  Q [] [x] ->
  (forall a l l', Q l l' -> Q (a :: l) (a :: l')) ->
  forall k l, Q l (insert_at k x l).
Proof.
  intros H0 Hn HS. induction k as [|k IH]; intros l.
  - apply H0.
  - destruct l as [|a l]; [rewrite insert_at_nil; exact Hn|].
    rewrite insert_at_S. apply HS, IH.
Qed.

Lemma entry_absent (n : string) (l : list node) : absent n l -> entry n l = None.
Proof.
  unfold absent, entry. induction l as [|a l IH]; simpl; [reflexivity|].
  intros H. apply andb_true_iff in H. destruct H as [Ha Hl].
  apply negb_true_iff in Ha. rewrite Ha. exact (IH Hl).
Qed.

Lemma absent_entry (n : string) (l : list node) : entry n l = None -> absent n l.
Proof.
  unfold absent, entry. intros H. apply forallb_forall. intros k Hk.
  apply negb_true_iff. exact (find_none _ _ H k Hk).
Qed.

Lemma absent_remove (n : string) (l : list node) : absent n (remove_entry n l).
Proof. unfold absent, remove_entry. apply forallb_filter. Qed.

Lemma remove_absent (n : string) (l : list node) : absent n l -> remove_entry n l = l.
Proof. unfold absent, remove_entry. apply forallb_filter_id. Qed.

Lemma entry_remove_other (m n : string) (l : list node) :
  m <> n -> entry m (remove_entry n l) = entry m l.
Proof.
  intros D. unfold entry, remove_entry.
  induction l as [|a l IH]; simpl; [reflexivity|].
  destruct (named n a) eqn:Na; simpl.
  - apply named_true in Na.
    destruct (named m a) eqn:Ma; [apply named_true in Ma; congruence | exact IH].
  - destruct (named m a); [reflexivity | exact IH].
Qed.

Lemma entry_insert_same (n : string) (x : node) (k : nat) (l : list node) :
  node_name x = n -> absent n l -> entry n (insert_at k x l) = Some x.
Proof.
  intros Hx. unfold entry.
  apply (insert_at_ind x (fun l l' => absent n l -> find (named n) l' = Some x)).
  - intros l0 _. simpl. apply named_true in Hx. now rewrite Hx.
  - intros _. simpl. apply named_true in Hx. now rewrite Hx.
  - intros a l0 l' IH H. unfold absent in H. simpl in H.
    apply andb_true_iff in H. destruct H as [Ha Hl].
    apply negb_true_iff in Ha. simpl. rewrite Ha. exact (IH Hl).
Qed.

Lemma entry_insert_other (m : string) (x : node) (k : nat) (l : list node) :
  node_name x <> m -> entry m (insert_at k x l) = entry m l.
Proof.
  intros Hx. unfold entry.
  assert (F : named m x = false).
  { destruct (named m x) eqn:E; [apply named_true in E; contradiction | reflexivity]. }
  apply (insert_at_ind x (fun l l' => find (named m) l' = find (named m) l)).
  - intros l0. simpl. now rewrite F.
  - simpl. now rewrite F.
  - intros a l0 l' IH. simpl. now rewrite IH.
Qed.

Lemma remove_insert (n : string) (x : node) (k : nat) (l : list node) :
  node_name x = n -> remove_entry n (insert_at k x l) = remove_entry n l.
Proof.
  intros Hx. apply named_true in Hx. unfold remove_entry.
  apply (insert_at_ind x (fun l l' =>
           filter (fun k => negb (named n k)) l' = filter (fun k => negb (named n k)) l)).
  - intros l0. simpl. now rewrite Hx.
  - simpl. now rewrite Hx.
  - intros a l0 l' IH. simpl. now rewrite IH.
Qed.

Lemma set_data_absent (n : string) (f : string -> string) (l : list node) :
  absent n l -> set_data n f l = l.
Proof.
  unfold absent, set_data. induction l as [|a l IH]; simpl; [reflexivity|].
  intros H. apply andb_true_iff in H. destruct H as [Ha Hl].
  rewrite (IH Hl). f_equal. destruct a as [m r d|m kids]; [|reflexivity].
  apply negb_true_iff in Ha. unfold named in Ha. simpl in Ha. now rewrite Ha.
Qed.

Lemma set_data_insert (n : string) (f : string -> string) (r : bool) (d : string)
      (k : nat) (l : list node) :
  absent n l ->
  set_data n f (insert_at k (File n r d) l) = insert_at k (File n r (f d)) l.
Proof.
  intros H. unfold insert_at, set_data. rewrite map_app. simpl.
  rewrite String.eqb_refl.
  fold (set_data n f (firstn k l)). fold (set_data n f (skipn k l)).
  assert (A1 : absent n (firstn k l) /\ absent n (skipn k l)).
  { unfold absent in *. rewrite <- (firstn_skipn k l), forallb_app in H.
    now apply andb_true_iff in H. }
  destruct A1 as [A1 A2].
  now rewrite (set_data_absent _ _ _ A1), (set_data_absent _ _ _ A2).
Qed.

(** *** Lookups around [combined.txt] *)

Lemma lookup_cons (r : list node) (n : string) (q : path) :
  lookup r (n :: q) =
  match entry n r with
  | Some k => lookup_in k q
  | None => None
  end.
Proof. reflexivity. Qed.

Lemma lookup_in_file (n : string) (r : bool) (d : string) (q : path) :
  q <> [] -> lookup_in (File n r d) q = None.
Proof. destruct q; [congruence | reflexivity]. Qed.

(** Inserting a regular file changes no other lookup. *)
Lemma lookup_insert_file (n : string) (r : bool) (d : string) (k : nat)
      (base : list node) (f : path) :
  absent n base -> f <> [] -> f <> [n] ->
  lookup (insert_at k (File n r d) base) f = lookup base f.
Proof.
  intros A Hne Hn. destruct f as [|m q]; [congruence|].
  rewrite !lookup_cons.
  destruct (string_dec m n) as [->|D].
  - rewrite (entry_insert_same n (File n r d) k base eq_refl A), (entry_absent n base A).
    apply lookup_in_file. intros ->. congruence.
  - rewrite entry_insert_other by (simpl; congruence). reflexivity.
Qed.

(** Removing a top-level entry that is not a directory changes no other
    lookup. *)
Lemma lookup_remove_file (n : string) (r : list node) (f : path) :
  dir_exists r [n] = false -> f <> [] -> f <> [n] ->
  lookup (remove_entry n r) f = lookup r f.
Proof.
  intros ND Hne Hn. destruct f as [|m q]; [congruence|].
  rewrite !lookup_cons.
  destruct (string_dec m n) as [->|D].
  - rewrite (entry_absent n _ (absent_remove n r)).
    unfold dir_exists in ND. rewrite lookup_cons in ND.
    destruct (entry n r) as [x|]; [|reflexivity].
    simpl in ND. destruct x as [m b d|m kids]; [|discriminate].
    symmetry. apply lookup_in_file. intros ->. congruence.
  - now rewrite entry_remove_other.
Qed.

End FSFacts.

(* ================================================================= *)
(** ** Properties of recursive globbing *)

Module GlobFacts.
Import Text FS TextFacts FSFacts.

Lemma rglob_node_dir (m : string -> bool) (n : string) (kids : list node) :
  rglob_node m (Dir n true kids) = map (cons n) (rglob_from m kids).
Proof. reflexivity. Qed.

Lemma basename_cons (n : string) (q : path) :
  q <> [] -> basename (n :: q) = basename q.
Proof. destruct q; [congruence | reflexivity]. Qed.

Lemma in_matches (m : string -> bool) (kids : list node) (p : path) :
  In p (matches m kids) <->
  exists k, In k kids /\ m (node_name k) = true /\ p = [node_name k].
Proof.
  unfold matches. rewrite in_map_iff. split.
  - intros [k [E Hk]]. apply filter_In in Hk. destruct Hk as [Hk Hm].
    exists k. auto.
  - intros [k [Hk [Hm E]]]. exists k. split; [auto|].
    apply filter_In. auto.
Qed.

(** What descending into one entry yields: paths of at least two parts
    that start with the name of the entry and end in a matching name. *)
Lemma rglob_node_shape (m : string -> bool) (x : node) :
  forall p, In p (rglob_node m x) ->
  exists q, p = node_name x :: q /\ q <> [] /\ m (basename q) = true.
Proof.
  induction x as [n r d | n a kids IH] using node_rect_nested; intros p Hp.
  - destruct Hp.
  - destruct a; [|destruct Hp].
    rewrite rglob_node_dir in Hp. apply in_map_iff in Hp.
    destruct Hp as [q [<- Hq]]. exists q. split; [reflexivity|].
    unfold rglob_from in Hq. apply in_app_or in Hq. destruct Hq as [Hq|Hq].
    + apply in_matches in Hq. destruct Hq as [k [_ [Hm ->]]].
      split; [discriminate | exact Hm].
    + apply in_flat_map in Hq. destruct Hq as [k [Hk Hq]].
      rewrite Forall_forall in IH.
      destruct (IH k Hk q Hq) as [q' [-> [Hne Hm]]].
      split; [discriminate|]. now rewrite basename_cons.
Qed.

(** Every yielded path is non-empty and its last part matches. *)
Lemma rglob_from_shape (m : string -> bool) (r : list node) (p : path) :
  In p (rglob_from m r) -> p <> [] /\ m (basename p) = true.
Proof.
  unfold rglob_from. intros Hp. apply in_app_or in Hp. destruct Hp as [Hp|Hp].
  - apply in_matches in Hp. destruct Hp as [k [_ [Hm ->]]].
    split; [discriminate | exact Hm].
  - apply in_flat_map in Hp. destruct Hp as [k [_ Hp]].
    destruct (rglob_node_shape m k p Hp) as [q [-> [Hne Hm]]].
    split; [discriminate|]. now rewrite basename_cons.
Qed.

(** Every entry of the tree whose name matches is yielded. *)
Lemma rglob_from_complete (m : string -> bool) (p : path) :
  forall (r : list node) (x : node),
  p <> [] -> lookup r p = Some x -> m (basename p) = true ->
  In p (rglob_from m r).
Proof.
  induction p as [|n q IH]; intros r x Hne Hl Hm; [congruence|].
  rewrite lookup_cons in Hl.
  destruct (entry n r) as [k|] eqn:Ek; [|discriminate].
  apply find_some in Ek. destruct Ek as [Hk Hn]. apply named_true in Hn.
  unfold rglob_from. apply in_or_app.
  destruct q as [|n' q'].
  - left. apply in_matches. exists k. subst n. auto.
  - right. apply in_flat_map. exists k. split; [exact Hk|].
    destruct k as [kn kr kd | kn [|] kids]; [discriminate | | discriminate].
    simpl in Hn. subst kn. rewrite rglob_node_dir. apply in_map.
    apply (IH kids x); [discriminate | exact Hl |].
    rewrite basename_cons in Hm by discriminate. exact Hm.
Qed.

(** In a well-formed tree every yielded path denotes an entry. *)
Lemma entry_unique (n : string) (l : list node) (k : node) :
  NoDup (map node_name l) -> In k l -> node_name k = n -> entry n l = Some k.
Proof.
  unfold entry. induction l as [|a l IH]; intros ND Hk Hn; [destruct Hk|].
  simpl in ND. apply NoDup_cons_iff in ND. destruct ND as [Ha ND].
  simpl. destruct (named n a) eqn:Na.
  - apply named_true in Na. destruct Hk as [->|Hk]; [reflexivity|].
    exfalso. apply Ha. rewrite Na, <- Hn. now apply in_map.
  - destruct Hk as [->|Hk].
    + apply named_true in Hn. congruence.
    + now apply IH.
Qed.

Lemma wf_node_dir (n : string) (a : bool) (kids : list node) :
  wf_node (Dir n a kids) = wf kids.
Proof. reflexivity. Qed.

Lemma wf_parts (r : list node) :
  wf r = true -> NoDup (map node_name r) /\ Forall (fun k => wf_node k = true) r.
Proof.
  unfold wf. intros H. apply andb_true_iff in H. destruct H as [H1 H2].
  split; [now apply nodupb_NoDup|].
  apply Forall_forall. now apply forallb_forall.
Qed.

Lemma rglob_from_sound (m : string -> bool) (p : path) :
  forall r, wf r = true -> In p (rglob_from m r) -> exists x, lookup r p = Some x.
Proof.
  induction p as [|n q IH]; intros r W Hp.
  - apply rglob_from_shape in Hp. destruct Hp as [Hp _]. congruence.
  - destruct (wf_parts r W) as [ND WF]. rewrite Forall_forall in WF.
    unfold rglob_from in Hp. apply in_app_or in Hp. destruct Hp as [Hp|Hp].
    + apply in_matches in Hp. destruct Hp as [k [Hk [_ E]]].
      injection E as -> ->. exists k. rewrite lookup_cons.
      now rewrite (entry_unique _ r k ND Hk eq_refl).
    + apply in_flat_map in Hp. destruct Hp as [k [Hk Hp]].
      destruct k as [kn kr kd | kn [|] kids]; [destruct Hp | | destruct Hp].
      rewrite rglob_node_dir in Hp. apply in_map_iff in Hp.
      destruct Hp as [q' [E Hq']]. injection E as -> ->.
      rewrite lookup_cons, (entry_unique n r (Dir n true kids) ND Hk eq_refl).
      specialize (WF _ Hk). rewrite wf_node_dir in WF.
      destruct (IH kids WF Hq') as [x Hx]. exists x.
      destruct q as [|n' q'']; [apply rglob_from_shape in Hq'; destruct Hq'; congruence|].
      exact Hx.
Qed.

(** *** No path is yielded twice *)







(** *** Removing a top-level regular file whose name does not match *)

Lemma rglob_from_remove (m : string -> bool) (n : string) (r : list node) :
  m n = false ->
  (forall k, In k r -> node_name k = n -> is_dir k = false) ->
  rglob_from m (remove_entry n r) = rglob_from m r.
Proof.
  intros Hm Hf. unfold rglob_from, matches, remove_entry. f_equal.
  - f_equal. induction r as [|a l IH]; simpl; [reflexivity|].
    destruct (named n a) eqn:Na; simpl.
    + apply named_true in Na. rewrite Na, Hm. apply IH.
      intros k Hk. apply Hf. now right.
    + destruct (m (node_name a)); [f_equal|]; apply IH; intros k Hk; apply Hf; now right.
  - induction r as [|a l IH]; simpl; [reflexivity|].
    destruct (named n a) eqn:Na; simpl.
    + apply named_true in Na.
      assert (Fa : is_dir a = false) by (apply Hf; [now left | exact Na]).
      destruct a; [|discriminate]. simpl. apply IH.
      intros k Hk. apply Hf. now right.
    + f_equal. apply IH. intros k Hk. apply Hf. now right.
Qed.

Lemma top_level_file (n : string) (r : list node) :
  wf r = true -> dir_exists r [n] = false ->
  forall k, In k r -> node_name k = n -> is_dir k = false.
Proof.
  intros W ND k Hk Hn. destruct (wf_parts r W) as [NDn _].
  unfold dir_exists in ND. rewrite lookup_cons in ND.
  rewrite (entry_unique n r k NDn Hk Hn) in ND. simpl in ND.
  destruct k; [reflexivity | discriminate].
Qed.

(** *** The selectors of the script *)

Lemma selector_rs (n : string) : selector "*.rs" n = true <-> ends_with n ".rs".
Proof. change (selector "*.rs" n) with (fnmatch "*.rs" n). now apply fnmatch_star. Qed.

Lemma selector_pest (n : string) : selector "*.pest" n = true <-> ends_with n ".pest".
Proof. change (selector "*.pest" n) with (fnmatch "*.pest" n). now apply fnmatch_star. Qed.

Lemma selector_cargo (n : string) : selector "Cargo.toml" n = true <-> n = "Cargo.toml".
Proof.
  change (selector "Cargo.toml" n) with (String.eqb "Cargo.toml" n).
  rewrite String.eqb_eq. split; congruence.
Qed.

Lemma last_char_app (pre : string) (c : ascii) (s : string) :
  last_char (pre ++ String c s) = last_char (String c s).
Proof.
  induction pre as [|x pre IH]; [reflexivity|].
  cbn [append last_char]. rewrite IH.
  destruct (pre ++ String c s)%string eqn:E; [|reflexivity].
  destruct pre; discriminate.
Qed.

Lemma rs_not_pest (n : string) : ends_with n ".rs" -> ends_with n ".pest" -> False.
Proof.
  intros [p1 E1] [p2 E2].
  assert (L1 : last_char n = Some "s"%char) by (rewrite E1; apply last_char_app).
  assert (L2 : last_char n = Some "t"%char) by (rewrite E2; apply last_char_app).
  congruence.
Qed.

End GlobFacts.

(* ================================================================= *)
(** ** The run, statement by statement *)

Module RunFacts.
Import Text FS Script Run TextFacts FSFacts GlobFacts.

(** *** The example of the specification *)

Example project_selection :
  selected (root Examples.project) =
  [["src"; "main.rs"]; ["grammar"; "expr.pest"]; ["Cargo.toml"]].
Proof. reflexivity. Qed.

Example project_first_block :
  block (cwd Examples.project) ["src"; "main.rs"] "fn main() {}" =
  ("////////////////////" ++ CRLF ++
   "# /home/dev/proj/src/main.rs" ++ CRLF ++
   "////////////////////" ++ CRLF ++
   "fn main() {}" ++ CRLF ++ CRLF)%string.
Proof. reflexivity. Qed.

Example project_run :
  fst (main Examples.posix Examples.project) = Return tt /\
  console (snd (main Examples.posix Examples.project)) = [msg_start; msg_done] /\
  map node_name (root (snd (main Examples.posix Examples.project))) =
    ["combined.txt"; "src"; "grammar"; "Cargo.toml"; "target"; "addons"].
Proof. vm_compute. repeat split. Qed.

(** A directory called [combined.txt] cannot be unlinked. *)
Example output_is_directory :
  main Examples.posix {| cwd := ["w"]; root := [Dir "combined.txt" true []]; console := [] |} =
  (Raise (IsADirectoryError OUTPUT),
   {| cwd := ["w"]; root := [Dir "combined.txt" true []]; console := [] |}).
Proof. reflexivity. Qed.

(** An unreadable source stops the run after its header. *)
Example unreadable_source :
  main Examples.posix {| cwd := ["w"]; root := [File "a.rs" false "x"]; console := [] |} =
  (Raise (PermissionError ["a.rs"]),
   {| cwd := ["w"];
      root := [File "combined.txt" true (header ["w"] ["a.rs"]); File "a.rs" false "x"];
      console := [msg_start] |}).
Proof. reflexivity. Qed.

(** A source below a directory that is not accessible is passed over:
    the run returns and writes the block of [main.rs] alone. *)
Example sealed_directory :
  selected (root Examples.sealed) = [["main.rs"]] /\
  main Examples.posix Examples.sealed =
  (Return tt,
   {| cwd := ["w"];
      root := File "combined.txt" true (block ["w"] ["main.rs"] "fn main() {}")
              :: root Examples.sealed;
      console := [msg_start; msg_done] |}).
Proof. split; reflexivity. Qed.

(** A name that is not UTF-8 stops the run at its path line, after the
    first banner line of its block. *)
Example undecodable_name :
  main Examples.posix Examples.odd_name =
  (Raise (UnicodeEncodeError (path_line ["w"] [String "255"%char ".rs"])),
   {| cwd := ["w"];
      root := File "combined.txt" true
                   (block ["w"] ["a.rs"] "x" ++ banner ++ CRLF)
              :: root Examples.odd_name;
      console := [msg_start] |}).
Proof. reflexivity. Qed.

(** *** Texts that the encoder accepts *)

Lemma read_at_valid (r : list node) (f : path) (text : string) :
  read_at r f = Return text -> utf8_valid text = true.
Proof.
  unfold read_at. destruct (lookup r f) as [[n [|] d|n kids]|]; try discriminate.
  intros E. injection E as <-. apply universal_newlines_valid, utf8_ignore_valid.
Qed.

Lemma join_valid (p : path) :
  (forall n, In n p -> utf8_valid n = true) -> utf8_valid (join "/" p) = true.
Proof.
  induction p as [|x p IH]; intros H; [reflexivity|].
  cbn [join]. destruct p as [|y p]; [apply H; now left|].
  apply utf8_valid_app; [apply H; now left|].
  apply (utf8_valid_app "/"); [reflexivity|].
  apply IH. intros n Hn. apply H. now right.
Qed.

Lemma path_line_valid (c f : path) :
  (forall n, In n c -> utf8_valid n = true) ->
  (forall n, In n f -> utf8_valid n = true) ->
  utf8_valid (path_line c f) = true.
Proof.
  intros Hc Hf. unfold path_line, str_abs.
  assert (J : utf8_valid (join "/" (c ++ f)) = true).
  { apply join_valid. intros n Hn. apply in_app_or in Hn. destruct Hn; auto. }
  repeat (apply utf8_valid_app; try reflexivity); exact J.
Qed.

Lemma header_valid (c f : path) :
  (forall n, In n c -> utf8_valid n = true) ->
  (forall n, In n f -> utf8_valid n = true) ->
  utf8_valid (header c f) = true.
Proof.
  intros Hc Hf. unfold header, str_abs.
  assert (J : utf8_valid (join "/" (c ++ f)) = true).
  { apply join_valid. intros n Hn. apply in_app_or in Hn. destruct Hn; auto. }
  repeat (apply utf8_valid_app; try reflexivity); exact J.
Qed.

Lemma bind_unfold {A B} (c : M A) (k : A -> M B) (w : world) :
  bind c k w =
  match c w with
  | (Return a, w') => k a w'
  | (Raise e, w') => (Raise e, w')
  end.
Proof. reflexivity. Qed.

Lemma main_unfold (h : host) :
  main h =
  bind (path_exists OUTPUT) (fun present =>
  bind (if present then unlink OUTPUT else ret tt) (fun _ => after_unlink h)).
Proof. reflexivity. Qed.

Lemma lookup_output (r : list node) : lookup r OUTPUT = entry "combined.txt" r.
Proof. unfold OUTPUT. rewrite lookup_cons. now destruct (entry "combined.txt" r). Qed.

Lemma denied_output (r : list node) : denied r OUTPUT = false.
Proof.
  unfold denied, OUTPUT. cbn [denied_in]. now destruct (entry "combined.txt" r).
Qed.

(** *** Writing and reading while [combined.txt] is open *)

Lemma write_during (h : host) (c : path) (con : list string) (k : nat)
      (d : string) (base : list node) (s : string) :
  absent "combined.txt" base ->
  utf8_valid s = true ->
  write h out_handle s (during c con k d base) =
  (Return tt, during c con k (d ++ s) base).
Proof.
  intros A V. unfold write, during, with_root, out_handle.
  cbn [h_path h_newline root cwd console].
  rewrite translate_out_empty, V.
  change (parent OUTPUT) with (@nil string).
  change (basename OUTPUT) with "combined.txt".
  cbn [at_dir]. now rewrite set_data_insert.
Qed.

Lemma write_refused (h : host) (w : world) (s : string) :
  utf8_valid s = false ->
  write h out_handle s w = (Raise (UnicodeEncodeError s), w).
Proof.
  intros V. unfold write, out_handle. cbn [h_newline].
  now rewrite translate_out_empty, V.
Qed.

Lemma not_output_by_name (f : path) :
  f <> [] -> basename f <> "combined.txt" -> f <> OUTPUT.
Proof. intros _ H E. apply H. now rewrite E. Qed.

Lemma denied_insert_file (n : string) (r : bool) (d : string) (k : nat)
      (base : list node) (f : path) :
  absent n base -> f <> [n] ->
  denied (insert_at k (File n r d) base) f = denied base f.
Proof.
  intros A Hn. destruct f as [|m q]; [reflexivity|].
  unfold denied. cbn [denied_in].
  destruct (string_dec m n) as [->|D].
  - rewrite (entry_insert_same n (File n r d) k base eq_refl A), (entry_absent n base A).
    destruct q; reflexivity.
  - rewrite entry_insert_other by (simpl; congruence). reflexivity.
Qed.

Lemma read_during (c : path) (con : list string) (k : nat)
      (d : string) (base : list node) (f : path) :
  absent "combined.txt" base -> f <> [] -> f <> OUTPUT ->
  read_text f (during c con k d base) = (read_at base f, during c con k d base).
Proof.
  intros A Hne Hn. unfold read_text, read_at, no_entry, during.
  cbn [root]. rewrite (lookup_insert_file _ _ _ _ _ _ A Hne Hn).
  rewrite (denied_insert_file _ _ _ _ _ _ A Hn).
  destruct (lookup base f) as [[n [|] data | n a kids]|]; reflexivity.
Qed.

Lemma header_lines (c f : path) :
  header c f = ((banner ++ CRLF) ++ path_line c f ++ banner ++ CRLF)%string.
Proof. unfold header, path_line. now rewrite !sapp_assoc. Qed.

Lemma write_block_during (h : host) (c : path) (con : list string) (k : nat)
      (d : string) (base : list node) (f : path) :
  absent "combined.txt" base -> f <> [] -> f <> OUTPUT ->
  write_block h out_handle f (during c con k d base) =
  if utf8_valid (path_line c f) then
    match read_at base f with
    | Return text => (Return tt, during c con k (d ++ block c f text) base)
    | Raise e => (Raise e, during c con k (d ++ header c f) base)
    end
  else (Raise (UnicodeEncodeError (path_line c f)),
        during c con k (d ++ banner ++ CRLF) base).
Proof.
  intros A Hne Hn. unfold write_block.
  rewrite bind_unfold, write_during by (exact A || reflexivity).
  rewrite bind_unfold. unfold resolve at 1. cbn [cwd during].
  fold (during c con k (d ++ str_mul "//" 10 ++ CRLF) base).
  fold (path_line c f). rewrite bind_unfold.
  destruct (utf8_valid (path_line c f)) eqn:V.
  - rewrite write_during by assumption.
    rewrite bind_unfold, write_during by (exact A || reflexivity).
    rewrite bind_unfold, read_during by assumption.
    unfold block. rewrite header_lines. fold banner.
    destruct (read_at base f) as [text|e] eqn:R.
    + rewrite bind_unfold, write_during by (exact A || exact (read_at_valid _ _ _ R)).
      rewrite write_during by (exact A || reflexivity).
      now rewrite !sapp_assoc.
    + now rewrite !sapp_assoc.
  - now rewrite write_refused.
Qed.

Lemma for_each_during (h : host) (c : path) (con : list string) (k : nat)
      (base : list node) (l : list path) :
  absent "combined.txt" base ->
  (forall f, In f l -> f <> [] /\ f <> OUTPUT) ->
  forall d,
  for_each l (write_block h out_handle) (during c con k d base) =
  (finish (snd (emit c base l)), during c con k (d ++ fst (emit c base l)) base).
Proof.
  intros A. induction l as [|f l IH]; intros Hl d.
  - simpl. now rewrite sapp_nil_r.
  - cbn [for_each]. rewrite bind_unfold.
    destruct (Hl f (or_introl eq_refl)) as [Hne Hn].
    rewrite write_block_during by assumption.
    cbn [emit]. destruct (utf8_valid (path_line c f)); [|reflexivity].
    destruct (read_at base f) as [text|e]; [|reflexivity].
    rewrite IH by (intros g Hg; apply Hl; now right).
    destruct (emit c base l) as [rest stop]. cbn [fst snd].
    now rewrite sapp_assoc.
Qed.

(** *** What is selected *)

Lemma in_parts_In (n : string) (f : path) : in_parts n f = true <-> In n f.
Proof.
  unfold in_parts. rewrite existsb_exists. split.
  - intros [x [Hx E]]. apply String.eqb_eq in E. now subst.
  - intros H. exists n. split; [exact H | apply String.eqb_refl].
Qed.

Lemma not_in_parts (n : string) (f : path) :
  negb (in_parts n f) = true <-> ~ In n f.
Proof.
  rewrite negb_true_iff, <- in_parts_In.
  destruct (in_parts n f); split; congruence.
Qed.

Lemma in_rs_files (r : list node) (f : path) :
  In f (rs_files r) <->
  In f (rglob_from (selector "*.rs") r) /\ ~ In "target" f.
Proof. unfold rs_files. now rewrite filter_In, not_in_parts. Qed.

Lemma in_pest_files (r : list node) (f : path) :
  In f (pest_files r) <->
  In f (rglob_from (selector "*.pest") r) /\ ~ In "addons" f.
Proof. unfold pest_files. now rewrite filter_In, not_in_parts. Qed.

Lemma in_cargo_toml (r : list node) (f : path) :
  In f (cargo_toml r) <->
  In f (rglob_from (selector "Cargo.toml") r) /\ ~ In "addons" f.
Proof. unfold cargo_toml. now rewrite filter_In, not_in_parts. Qed.

Lemma in_selected (r : list node) (f : path) :
  In f (selected r) <->
  In f (rs_files r) \/ In f (pest_files r) \/ In f (cargo_toml r).
Proof. unfold selected, chain. now rewrite !in_app_iff. Qed.

(** A selected path meets the criterion of the list it comes from. *)
Lemma rs_files_criterion (r : list node) (f : path) :
  In f (rs_files r) -> f <> [] /\ criterion_rs f.
Proof.
  rewrite in_rs_files. intros [H N]. apply rglob_from_shape in H.
  destruct H as [Hne Hm]. apply selector_rs in Hm. now repeat split.
Qed.

Lemma pest_files_criterion (r : list node) (f : path) :
  In f (pest_files r) -> f <> [] /\ criterion_pest f.
Proof.
  rewrite in_pest_files. intros [H N]. apply rglob_from_shape in H.
  destruct H as [Hne Hm]. apply selector_pest in Hm. now repeat split.
Qed.

Lemma cargo_toml_criterion (r : list node) (f : path) :
  In f (cargo_toml r) -> f <> [] /\ criterion_cargo f.
Proof.
  rewrite in_cargo_toml. intros [H N]. apply rglob_from_shape in H.
  destruct H as [Hne Hm]. apply selector_cargo in Hm. now repeat split.
Qed.

(** The name [combined.txt] meets none of the three name tests. *)
Lemma output_name_unselected :
  selector "*.rs" "combined.txt" = false /\
  selector "*.pest" "combined.txt" = false /\
  selector "Cargo.toml" "combined.txt" = false.
Proof. repeat split; reflexivity. Qed.

Lemma selected_shape (r : list node) (f : path) :
  In f (selected r) -> f <> [] /\ basename f <> "combined.txt".
Proof.
  intros H. apply in_selected in H.
  destruct output_name_unselected as [O1 [O2 O3]].
  destruct H as [H|[H|H]].
  - apply rs_files_criterion in H. destruct H as [Hne [Hs _]].
    split; [exact Hne|]. intros E. rewrite E in Hs.
    apply selector_rs in Hs. congruence.
  - apply pest_files_criterion in H. destruct H as [Hne [Hs _]].
    split; [exact Hne|]. intros E. rewrite E in Hs.
    apply selector_pest in Hs. congruence.
  - apply cargo_toml_criterion in H. destruct H as [Hne [Hs _]].
    split; [exact Hne|]. intros E. rewrite E in Hs. discriminate.
Qed.

Lemma selected_not_OUTPUT (r : list node) (f : path) :
  In f (selected r) -> f <> [] /\ f <> OUTPUT.
Proof.
  intros H. apply selected_shape in H. destruct H as [Hne Hb].
  split; [exact Hne | now apply not_output_by_name].
Qed.

(** *** From the removal of the old output to the end *)

Lemma after_unlink_spec (h : host) (c : path) (con : list string) (base : list node) :
  absent "combined.txt" base ->
  after_unlink h {| cwd := c; root := base; console := con |} =
  (finish (snd (emit c base (selected base))),
   during c (con ++ lines_after (snd (emit c base (selected base))))
          (new_entry_pos h) (fst (emit c base (selected base))) base).
Proof.
  intros A. unfold after_unlink.
  rewrite bind_unfold. unfold print at 1. cbn [cwd root console].
  rewrite bind_unfold. unfold rglob at 1. cbn [cwd root console].
  rewrite bind_unfold. unfold rglob at 1. cbn [cwd root console].
  rewrite bind_unfold. unfold rglob at 1. cbn [cwd root console].
  fold (rs_files base). fold (pest_files base). fold (cargo_toml base).
  fold (selected base).
  rewrite bind_unfold. unfold with_open, open_w.
  cbn [cwd root console]. rewrite lookup_output, (entry_absent _ _ A).
  change (parent OUTPUT) with (@nil string).
  change (basename OUTPUT) with "combined.txt".
  cbn [with_root at_dir cwd root console].
  fold out_handle. unfold with_root. cbn [cwd root console].
  fold (during c (con ++ ["[+] Collecting .gd / .tscn files..."]) (new_entry_pos h) "" base).
  rewrite for_each_during by (exact A || apply selected_not_OUTPUT).
  cbn [append]. unfold close, ret. cbn [snd].
  destruct (snd (emit c base (selected base))) as [e|]; cbn [finish lines_after].
  - reflexivity.
  - unfold print, during. cbn [cwd root console].
    rewrite <- app_assoc. reflexivity.
Qed.

(** *** The whole run *)

Lemma sources_absent (r : list node) : absent "combined.txt" (sources r).
Proof. apply absent_remove. Qed.

Lemma world_eta (w : world) :
  {| cwd := cwd w; root := root w; console := console w |} = w.
Proof. now destruct w. Qed.

(** A directory called [combined.txt] stops the run at once. *)
Lemma main_output_is_dir (h : host) (w : world) :
  dir_exists (root w) OUTPUT = true ->
  main h w = (Raise (IsADirectoryError OUTPUT), w).
Proof.
  unfold dir_exists. intros D. rewrite main_unfold, bind_unfold.
  unfold path_exists at 1.
  destruct (lookup (root w) OUTPUT) as [[n r d|n a kids]|] eqn:L; try discriminate.
  rewrite bind_unfold. unfold unlink. now rewrite L.
Qed.

(** Otherwise the run is determined by the tree without [combined.txt]. *)
Lemma main_spec (h : host) (w : world) :
  dir_exists (root w) OUTPUT = false ->
  main h w =
  (finish (snd (emit (cwd w) (sources (root w)) (selected (sources (root w))))),
   during (cwd w)
          (console w ++
           lines_after (snd (emit (cwd w) (sources (root w)) (selected (sources (root w))))))
          (new_entry_pos h)
          (fst (emit (cwd w) (sources (root w)) (selected (sources (root w)))))
          (sources (root w))).
Proof.
  unfold dir_exists. intros D. rewrite main_unfold, bind_unfold.
  unfold path_exists at 1. rewrite denied_output.
  destruct (lookup (root w) OUTPUT) as [[n r d|n a kids]|] eqn:L; try discriminate.
  - rewrite bind_unfold. unfold unlink. rewrite L.
    change (parent OUTPUT) with (@nil string).
    change (basename OUTPUT) with "combined.txt".
    unfold with_root. cbn [at_dir]. fold (sources (root w)).
    apply after_unlink_spec, sources_absent.
  - rewrite bind_unfold. unfold ret.
    rewrite lookup_output in L. apply absent_entry in L.
    unfold sources. rewrite (remove_absent _ _ L).
    rewrite <- (world_eta w) at 1.
    now apply after_unlink_spec.
Qed.

Lemma denied_remove_file (n : string) (r : list node) (f : path) :
  dir_exists r [n] = false -> f <> [n] ->
  denied (remove_entry n r) f = denied r f.
Proof.
  intros ND Hn. destruct f as [|m q]; [reflexivity|].
  unfold denied. cbn [denied_in].
  destruct (string_dec m n) as [->|D].
  - rewrite (entry_absent n _ (absent_remove n r)).
    unfold dir_exists in ND. rewrite lookup_cons in ND.
    destruct (entry n r) as [x|]; [|reflexivity].
    simpl in ND. destruct x as [m b d|m a kids]; [|discriminate].
    destruct q; reflexivity.
  - now rewrite entry_remove_other.
Qed.

Lemma read_at_sources (r : list node) (f : path) :
  dir_exists r OUTPUT = false -> f <> [] -> f <> OUTPUT ->
  read_at (sources r) f = read_at r f.
Proof.
  intros D Hne Hn. unfold read_at, no_entry, sources.
  rewrite (lookup_remove_file "combined.txt" r f D Hne Hn).
  now rewrite (denied_remove_file "combined.txt" r f D Hn).
Qed.

Lemma selected_sources (r : list node) :
  wf r = true -> dir_exists r OUTPUT = false -> selected (sources r) = selected r.
Proof.
  intros W D. unfold selected, rs_files, pest_files, cargo_toml, sources.
  pose proof (top_level_file "combined.txt" r W D) as F.
  now rewrite !rglob_from_remove by (reflexivity || exact F).
Qed.

Lemma emit_ext (c : path) (r1 r2 : list node) (l : list path) :
  (forall f, In f l -> read_at r1 f = read_at r2 f) ->
  emit c r1 l = emit c r2 l.
Proof.
  induction l as [|f l IH]; intros H; [reflexivity|].
  cbn [emit]. rewrite (H f (or_introl eq_refl)).
  rewrite IH by (intros g Hg; apply H; now right). reflexivity.
Qed.

Lemma emit_sources (c : path) (r : list node) :
  wf r = true -> dir_exists r OUTPUT = false ->
  emit c (sources r) (selected (sources r)) = emit c r (selected r).
Proof.
  intros W D. rewrite (selected_sources r W D). apply emit_ext.
  intros f Hf. apply selected_not_OUTPUT in Hf. destruct Hf as [Hne Hn].
  now apply read_at_sources.
Qed.

(** The run on a well-formed tree, in terms of the tree itself. *)
Lemma main_wf (h : host) (w : world) :
  wf (root w) = true -> dir_exists (root w) OUTPUT = false ->
  main h w =
  (finish (snd (emit (cwd w) (root w) (selected (root w)))),
   during (cwd w)
          (console w ++ lines_after (snd (emit (cwd w) (root w) (selected (root w)))))
          (new_entry_pos h)
          (fst (emit (cwd w) (root w) (selected (root w))))
          (sources (root w))).
Proof.
  intros W D. rewrite (main_spec h w D). now rewrite (emit_sources (cwd w) (root w) W D).
Qed.

(** *** Completed runs *)

Lemma read_at_readable (r : list node) (f : path) (text : string) :
  read_at r f = Return text -> readable_file r f /\ content_of r f = text.
Proof.
  intros H. split.
  - unfold read_at in H. unfold readable_file.
    destruct (lookup r f) as [[n [|] data|n kids]|]; try discriminate. eauto.
  - unfold content_of, text_of. now rewrite H.
Qed.

Lemma readable_read_at (r : list node) (f : path) :
  readable_file r f -> read_at r f = Return (content_of r f).
Proof.
  intros [n [data L]]. unfold content_of, text_of, read_at. now rewrite L.
Qed.

Lemma emit_completed (c : path) (r : list node) (l : list path) :
  snd (emit c r l) = None ->
  Forall (readable_file r) l /\ fst (emit c r l) = blocks c r l.
Proof.
  induction l as [|f l IH]; cbn [emit blocks]; intros H; [now split|].
  destruct (utf8_valid (path_line c f)); [|discriminate].
  destruct (read_at r f) as [text|e] eqn:R; [|discriminate].
  destruct (emit c r l) as [rest stop]. cbn [fst snd] in *.
  destruct (IH H) as [F E]. apply read_at_readable in R. destruct R as [R1 R2].
  split; [now constructor | now rewrite R2, E].
Qed.

Lemma emit_completed_encodable (c : path) (r : list node) (l : list path) :
  snd (emit c r l) = None -> Forall (encodable c) l.
Proof.
  induction l as [|f l IH]; cbn [emit]; intros H; [constructor|].
  destruct (utf8_valid (path_line c f)) eqn:V; [|discriminate].
  destruct (read_at r f) as [text|e]; [|discriminate].
  destruct (emit c r l) as [rest stop]. cbn [snd] in *.
  constructor; [exact V | exact (IH H)].
Qed.

Lemma emit_readable (c : path) (r : list node) (l : list path) :
  Forall (readable_file r) l -> Forall (encodable c) l ->
  emit c r l = (blocks c r l, None).
Proof.
  induction 1 as [|f l Hf Hl IH]; cbn [emit blocks]; intros V; [reflexivity|].
  inversion V as [|? ? Vf Vl]; subst. unfold encodable in Vf.
  now rewrite Vf, (readable_read_at r f Hf), (IH Vl).
Qed.

Lemma blocks_app (c : path) (r : list node) (a b : list path) :
  blocks c r (a ++ b) = (blocks c r a ++ blocks c r b)%string.
Proof.
  induction a as [|f a IH]; cbn [blocks app]; [reflexivity|].
  now rewrite IH, sapp_assoc.
Qed.

Lemma output_during (c : path) (con : list string) (k : nat) (d : string)
      (base : list node) :
  absent "combined.txt" base -> output (during c con k d base) = Some d.
Proof.
  intros A. unfold output, during. cbn [root]. rewrite lookup_output.
  now rewrite (entry_insert_same "combined.txt" (File "combined.txt" true d) k base eq_refl A).
Qed.

(** A run that returns: the old output was not a directory, every
    selected path is a readable regular file, and the final world is
    known. *)
Lemma completed_run (h : host) (w w' : world) :
  wf (root w) = true -> main h w = (Return tt, w') ->
  dir_exists (root w) OUTPUT = false /\
  Forall (readable_file (root w)) (selected (root w)) /\
  w' = during (cwd w) (console w ++ [msg_start; msg_done]) (new_entry_pos h)
              (blocks (cwd w) (root w) (selected (root w))) (sources (root w)).
Proof.
  intros W R.
  destruct (dir_exists (root w) OUTPUT) eqn:D.
  { rewrite (main_output_is_dir h w D) in R. discriminate. }
  split; [reflexivity|].
  rewrite (main_wf h w W D) in R.
  destruct (snd (emit (cwd w) (root w) (selected (root w)))) as [e|] eqn:S;
    cbn [finish lines_after] in R; [discriminate|].
  destruct (emit_completed _ _ _ S) as [F E]. rewrite E in R.
  split; [exact F|]. now injection R as <-.
Qed.

Lemma completed_run_encodable (h : host) (w w' : world) :
  wf (root w) = true -> main h w = (Return tt, w') ->
  Forall (encodable (cwd w)) (selected (root w)).
Proof.
  intros W R.
  destruct (dir_exists (root w) OUTPUT) eqn:D.
  { rewrite (main_output_is_dir h w D) in R. discriminate. }
  rewrite (main_wf h w W D) in R.
  destruct (snd (emit (cwd w) (root w) (selected (root w)))) as [e|] eqn:S;
    cbn [finish lines_after] in R; [discriminate|].
  exact (emit_completed_encodable _ _ _ S).
Qed.

(** A run on a tree whose selected paths are all readable regular files
    with path lines that can be encoded returns. *)
Lemma run_returns (h : host) (w : world) :
  wf (root w) = true -> dir_exists (root w) OUTPUT = false ->
  Forall (readable_file (root w)) (selected (root w)) ->
  Forall (encodable (cwd w)) (selected (root w)) ->
  main h w =
  (Return tt,
   during (cwd w) (console w ++ [msg_start; msg_done]) (new_entry_pos h)
          (blocks (cwd w) (root w) (selected (root w))) (sources (root w))).
Proof.
  intros W D F V. rewrite (main_wf h w W D), (emit_readable _ _ _ F V). reflexivity.
Qed.

End RunFacts.

(* ================================================================= *)
(** ** The properties of the specification *)

Module Claims.
Import Text FS Script Run TextFacts FSFacts GlobFacts RunFacts Examples.

Lemma criterion_nonempty (f : path) :
  criterion_rs f \/ criterion_pest f \/ criterion_cargo f -> f <> [].
Proof.
  intros H ->. destruct H as [[H _]|[[H _]|[H _]]].
  - apply selector_rs in H. discriminate.
  - apply selector_pest in H. discriminate.
  - discriminate.
Qed.

(** An entry of the tree that meets a criterion is selected. *)
Lemma criterion_selected (r : list node) (f : path) (x : node) :
  lookup r f = Some x ->
  criterion_rs f \/ criterion_pest f \/ criterion_cargo f ->
  In f (selected r).
Proof.
  intros L C. pose proof (criterion_nonempty f C) as Hne.
  apply in_selected. destruct C as [[H N]|[[H N]|[H N]]].
  - left. apply in_rs_files. split; [|exact N].
    apply (rglob_from_complete _ f r x Hne L). now apply selector_rs.
  - right; left. apply in_pest_files. split; [|exact N].
    apply (rglob_from_complete _ f r x Hne L). now apply selector_pest.
  - right; right. apply in_cargo_toml. split; [|exact N].
    apply (rglob_from_complete _ f r x Hne L). now apply selector_cargo.
Qed.

(** In a well-formed tree a selected path denotes an entry and meets a
    criterion. *)
Lemma selected_criterion (r : list node) (f : path) :
  wf r = true -> In f (selected r) ->
  (exists x, lookup r f = Some x) /\
  (criterion_rs f \/ criterion_pest f \/ criterion_cargo f).
Proof.
  intros W H. apply in_selected in H. destruct H as [H|[H|H]].
  - split; [|left; now apply (rs_files_criterion r)].
    apply in_rs_files in H. destruct H as [H _]. exact (rglob_from_sound _ f r W H).
  - split; [|right; left; now apply (pest_files_criterion r)].
    apply in_pest_files in H. destruct H as [H _]. exact (rglob_from_sound _ f r W H).
  - split; [|right; right; now apply (cargo_toml_criterion r)].
    apply in_cargo_toml in H. destruct H as [H _]. exact (rglob_from_sound _ f r W H).
Qed.




Lemma blocks_split (c : path) (r : list node) (pre post : list path) (f : path) :
  blocks c r (pre ++ f :: post) =
  (blocks c r pre ++ block c f (content_of r f) ++ blocks c r post)%string.
Proof. rewrite blocks_app. reflexivity. Qed.

Lemma completed_output (h : host) (w w' : world) :
  wf (root w) = true -> main h w = (Return tt, w') ->
  output w' = Some (blocks (cwd w) (root w) (selected (root w))).
Proof.
  intros W R. destruct (completed_run h w w' W R) as [_ [_ ->]].
  apply output_during, sources_absent.
Qed.





(** In a well-formed tree each of the three lists holds exactly the
    entries that meet its criterion. *)
Lemma rs_files_iff (r : list node) (f : path) :
  wf r = true ->
  In f (rs_files r) <-> (exists x, lookup r f = Some x) /\ criterion_rs f.
Proof.
  intros W. split.
  - intros H. split; [|now apply (rs_files_criterion r)].
    apply in_rs_files in H. destruct H as [H _]. exact (rglob_from_sound _ f r W H).
  - intros [[x L] C]. apply in_rs_files. destruct C as [E N]. split; [|exact N].
    apply (rglob_from_complete _ f r x); [|exact L|now apply selector_rs].
    apply criterion_nonempty. left. now split.
Qed.

Lemma pest_files_iff (r : list node) (f : path) :
  wf r = true ->
  In f (pest_files r) <-> (exists x, lookup r f = Some x) /\ criterion_pest f.
Proof.
  intros W. split.
  - intros H. split; [|now apply (pest_files_criterion r)].
    apply in_pest_files in H. destruct H as [H _]. exact (rglob_from_sound _ f r W H).
  - intros [[x L] C]. apply in_pest_files. destruct C as [E N]. split; [|exact N].
    apply (rglob_from_complete _ f r x); [|exact L|now apply selector_pest].
    apply criterion_nonempty. right; left. now split.
Qed.

Lemma cargo_toml_iff (r : list node) (f : path) :
  wf r = true ->
  In f (cargo_toml r) <-> (exists x, lookup r f = Some x) /\ criterion_cargo f.
Proof.
  intros W. split.
  - intros H. split; [|now apply (cargo_toml_criterion r)].
    apply in_cargo_toml in H. destruct H as [H _]. exact (rglob_from_sound _ f r W H).
  - intros [[x L] C]. apply in_cargo_toml. destruct C as [E N]. split; [|exact N].
    apply (rglob_from_complete _ f r x); [|exact L|now apply selector_cargo].
    apply criterion_nonempty. right; right. now split.
Qed.

(** C2.  After a completed run the output is the blocks of all entries
    matching criterion 1 (.rs, outside [target]), then the blocks of all
    entries matching criterion 2 (.pest, outside [addons]), then the
    blocks of all entries matching criterion 3 (Cargo.toml, outside
    [addons]); with one path of each category it is the .rs block, the
    .pest block and the Cargo.toml block, in this order. *)
Theorem C2_blocks_in_category_order (h : host) (w w' : world) :
  wf (root w) = true ->
  main h w = (Return tt, w') ->
  output w' =
    Some (blocks (cwd w) (root w) (rs_files (root w)) ++
          blocks (cwd w) (root w) (pest_files (root w)) ++
          blocks (cwd w) (root w) (cargo_toml (root w)))%string /\
  (forall f, In f (rs_files (root w)) <->
             (exists x, lookup (root w) f = Some x) /\ criterion_rs f) /\
  (forall f, In f (pest_files (root w)) <->
             (exists x, lookup (root w) f = Some x) /\ criterion_pest f) /\
  (forall f, In f (cargo_toml (root w)) <->
             (exists x, lookup (root w) f = Some x) /\ criterion_cargo f) /\
  forall a b c,
    rs_files (root w) = [a] -> pest_files (root w) = [b] -> cargo_toml (root w) = [c] ->
    output w' =
      Some (block (cwd w) a (content_of (root w) a) ++
            block (cwd w) b (content_of (root w) b) ++
            block (cwd w) c (content_of (root w) c))%string.
Proof.
  intros W R.
  assert (O : output w' =
    Some (blocks (cwd w) (root w) (rs_files (root w)) ++
          blocks (cwd w) (root w) (pest_files (root w)) ++
          blocks (cwd w) (root w) (cargo_toml (root w)))%string).
  { rewrite (completed_output h w w' W R). unfold selected, chain.
    now rewrite !blocks_app. }
  split; [exact O|].
  split; [intros f; now apply rs_files_iff|].
  split; [intros f; now apply pest_files_iff|].
  split; [intros f; now apply cargo_toml_iff|].
  intros a b c Ea Eb Ec. rewrite O, Ea, Eb, Ec. cbn [blocks].
  now rewrite !sapp_nil_r.
Qed.

Lemma C2_witness :
  wf (root project) = true /\
  main posix project = (Return tt, snd (main posix project)) /\
  output (snd (main posix project)) =
    Some (blocks (cwd project) (root project) [["src"; "main.rs"]] ++
          blocks (cwd project) (root project) [["grammar"; "expr.pest"]] ++
          blocks (cwd project) (root project) [["Cargo.toml"]])%string.
Proof.
  assert (W : wf (root project) = true) by (vm_compute; reflexivity).
  assert (R : main posix project = (Return tt, snd (main posix project)))
    by (vm_compute; reflexivity).
  split; [exact W|]. split; [exact R|].
  exact (proj1 (C2_blocks_in_category_order posix project _ W R)).
Defined.

Lemma in_parent (n : string) (f : path) : In n (parent f) -> In n f.
Proof.
  unfold parent. induction f as [|a f IH]; [intros []|].
  simpl. destruct f as [|b f]; [intros []|].
  intros [E|H]; [now left | right; now apply IH].
Qed.

(** C3.  A path that has a directory component [target] and a name
    ending in [.rs], or a directory component [addons] and a name ending
    in [.pest] or equal to [Cargo.toml], is not among the selected paths,
    whose blocks make up the whole output of a completed run: no block is
    written for it.  (The components are those of the path relative to
    the working directory, which is what the script tests.) *)
Theorem C3_excluded_paths_have_no_block (h : host) (w w' : world) (f : path) :
  wf (root w) = true ->
  main h w = (Return tt, w') ->
  (ends_with (basename f) ".rs" /\ In "target" (parent f)) \/
  ((ends_with (basename f) ".pest" \/ basename f = "Cargo.toml") /\
   In "addons" (parent f)) ->
  ~ In f (selected (root w)) /\
  output w' = Some (blocks (cwd w) (root w) (selected (root w))).
Proof.
  intros W R X. split; [|exact (completed_output h w w' W R)].
  intros H. apply in_selected in H.
  assert (C : (In f (rs_files (root w)) -> criterion_rs f) /\
              (In f (pest_files (root w)) -> criterion_pest f) /\
              (In f (cargo_toml (root w)) -> criterion_cargo f)).
  { split; [|split].
    - intros I; now apply (rs_files_criterion (root w)).
    - intros I; now apply (pest_files_criterion (root w)).
    - intros I; now apply (cargo_toml_criterion (root w)). }
  destruct C as [C1 [C2 C3]].
  destruct X as [[E T]|[E T]]; apply in_parent in T.
  - destruct H as [H|[H|H]].
    + destruct (C1 H) as [_ N]. contradiction.
    + destruct (C2 H) as [P _]. exact (rs_not_pest _ E P).
    + destruct (C3 H) as [P _]. rewrite P in E. apply selector_rs in E. discriminate.
  - destruct H as [H|[H|H]].
    + destruct (C1 H) as [P _]. destruct E as [E|E].
      * exact (rs_not_pest _ P E).
      * rewrite E in P. apply selector_rs in P. discriminate.
    + destruct (C2 H) as [_ N]. contradiction.
    + destruct (C3 H) as [_ N]. contradiction.
Qed.

Lemma C3_witness :
  wf (root project) = true /\
  main posix project = (Return tt, snd (main posix project)) /\
  ((ends_with (basename ["target"; "debug"; "build.rs"]) ".rs" /\
    In "target" (parent ["target"; "debug"; "build.rs"])) \/
   ((ends_with (basename ["target"; "debug"; "build.rs"]) ".pest" \/
     basename ["target"; "debug"; "build.rs"] = "Cargo.toml") /\
    In "addons" (parent ["target"; "debug"; "build.rs"]))) /\
  ~ In ["target"; "debug"; "build.rs"] (selected (root project)).
Proof.
  assert (W : wf (root project) = true) by (vm_compute; reflexivity).
  assert (R : main posix project = (Return tt, snd (main posix project)))
    by (vm_compute; reflexivity).
  assert (X : (ends_with (basename ["target"; "debug"; "build.rs"]) ".rs" /\
               In "target" (parent ["target"; "debug"; "build.rs"])) \/
              ((ends_with (basename ["target"; "debug"; "build.rs"]) ".pest" \/
                basename ["target"; "debug"; "build.rs"] = "Cargo.toml") /\
               In "addons" (parent ["target"; "debug"; "build.rs"]))).
  { left. split; [exists "build"; reflexivity | simpl; now left]. }
  split; [exact W|]. split; [exact R|]. split; [exact X|].
  exact (proj1 (C3_excluded_paths_have_no_block posix project _ _ W R X)).
Defined.

Lemma str_abs_slash_joined (p : path) : p <> [] -> str_abs p = slash_joined p.
Proof.
  unfold str_abs. induction p as [|x p IH]; [congruence|]. intros _.
  destruct p as [|y p].
  - cbn [join slash_joined append]. now rewrite sapp_nil_r.
  - change (join "/" (x :: y :: p)) with (x ++ "/" ++ join "/" (y :: p))%string.
    change (slash_joined (x :: y :: p)) with (String "/" (x ++ slash_joined (y :: p))).
    rewrite <- IH by discriminate. reflexivity.
Qed.

Lemma block_spelled (c f : path) (text : string) :
  f <> [] -> block c f text = spelled_block (slash_joined (c ++ f)) text.
Proof.
  intros Hf. rewrite <- str_abs_slash_joined by (destruct c; [exact Hf | discriminate]).
  unfold block, header, spelled_block.
  change banner with "////////////////////".
  change CRLF with (String "013" (String "010" "")).
  change (String "013" (String "010" (String "013" (String "010" ""))))
    with (String "013" (String "010" "") ++ String "013" (String "010" ""))%string.
  change (String "#" (String " " (str_abs (c ++ f)))) with ("# " ++ str_abs (c ++ f)%list)%string.
  now rewrite !sapp_assoc.
Qed.

(** C4.  On every host (whatever its [os.linesep]), the block of each
    selected path in the output of a completed run is exactly: twenty
    ['/'], then the bytes 13 and 10; ["# "], the absolute path (the parts
    of the working directory and of the path, each behind a ["/"]), 13
    and 10; twenty ['/'], 13 and 10; the content of the file as
    [read_text] returns it; 13, 10, 13 and 10.  The terminators are
    written without translation. *)
Theorem C4_block_layout (h : host) (w w' : world) (pre post : list path) (f : path) :
  wf (root w) = true ->
  main h w = (Return tt, w') ->
  selected (root w) = pre ++ f :: post ->
  exists n data,
    lookup (root w) f = Some (File n true data) /\
    output w' =
      Some (blocks (cwd w) (root w) pre ++
            spelled_block (slash_joined (cwd w ++ f))
                          (universal_newlines (decode_utf8_ignore data)) ++
            blocks (cwd w) (root w) post)%string.
Proof.
  intros W R E.
  destruct (completed_run h w w' W R) as [_ [F _]].
  rewrite Forall_forall in F.
  assert (Hin : In f (selected (root w))) by (rewrite E; apply in_elt).
  destruct (F f Hin) as [n [data L]]. exists n, data. split; [exact L|].
  rewrite (completed_output h w w' W R), E, blocks_split.
  rewrite block_spelled by (apply (selected_shape (root w)); exact Hin).
  unfold content_of, text_of, read_at. now rewrite L.
Qed.

Lemma C4_witness :
  wf (root project) = true /\
  main windows_like project = (Return tt, snd (main windows_like project)) /\
  selected (root project) =
    [["src"; "main.rs"]] ++ ["grammar"; "expr.pest"] :: [["Cargo.toml"]] /\
  output (snd (main windows_like project)) =
    Some (blocks (cwd project) (root project) [["src"; "main.rs"]] ++
          ("////////////////////" ++ String "013" (String "010"
           ("# /home/dev/proj/grammar/expr.pest" ++ String "013" (String "010"
           ("////////////////////" ++ String "013" (String "010"
           ("expr = { ... }" ++ String "013" (String "010"
           (String "013" (String "010" "")))))))))) ++
          blocks (cwd project) (root project) [["Cargo.toml"]])%string.
Proof.
  assert (W : wf (root project) = true) by (vm_compute; reflexivity).
  assert (R : main windows_like project = (Return tt, snd (main windows_like project)))
    by (vm_compute; reflexivity).
  assert (E : selected (root project) =
              [["src"; "main.rs"]] ++ ["grammar"; "expr.pest"] :: [["Cargo.toml"]])
    by (vm_compute; reflexivity).
  split; [exact W|]. split; [exact R|]. split; [exact E|].
  destruct (C4_block_layout windows_like project _ _ _ _ W R E) as [n [data [L O]]].
  rewrite O. vm_compute in L. injection L as <- <-. vm_compute. reflexivity.
Defined.

(** C5 (as amended).  The content portion of the block of a selected
    file is the text that [read_text] returns: the bytes of the file
    decoded as UTF-8 with undecodable sequences dropped, and then with
    every CR LF pair and every lone CR replaced by one LF.  That text is
    written unchanged between the header and the two closing CR LF; it
    holds no CR, and it is the decoded text itself when the decoded text
    holds no CR. *)
Theorem C5_content_is_text_read (h : host) (w w' : world) (pre post : list path)
        (f : path) (n : string) (rd : bool) (data : string) :
  wf (root w) = true ->
  main h w = (Return tt, w') ->
  selected (root w) = pre ++ f :: post ->
  lookup (root w) f = Some (File n rd data) ->
  output w' =
    Some (blocks (cwd w) (root w) pre ++
          (header (cwd w) f ++
           universal_newlines (decode_utf8_ignore data) ++ CRLF ++ CRLF) ++
          blocks (cwd w) (root w) post)%string /\
  has_char CR (universal_newlines (decode_utf8_ignore data)) = false /\
  (has_char CR (decode_utf8_ignore data) = false ->
   universal_newlines (decode_utf8_ignore data) = decode_utf8_ignore data).
Proof.
  intros W R E L.
  destruct (completed_run h w w' W R) as [_ [F _]].
  rewrite Forall_forall in F.
  assert (Hin : In f (selected (root w))) by (rewrite E; apply in_elt).
  destruct (F f Hin) as [n' [data' L']]. rewrite L in L'. injection L' as -> -> ->.
  assert (T : content_of (root w) f = universal_newlines (decode_utf8_ignore data')).
  { unfold content_of, text_of, read_at. now rewrite L. }
  split.
  - rewrite (completed_output h w w' W R), E, blocks_split, T. reflexivity.
  - split; [apply universal_newlines_no_CR | apply universal_newlines_id].
Qed.

Lemma C5_witness :
  wf (root dos_source) = true /\
  main posix dos_source = (Return tt, snd (main posix dos_source)) /\
  selected (root dos_source) = [] ++ ["a.rs"] :: [] /\
  lookup (root dos_source) ["a.rs"] = Some (File "a.rs" true ("a" ++ CRLF ++ "b")) /\
  output (snd (main posix dos_source)) =
    Some (header (cwd dos_source) ["a.rs"] ++ ("a" ++ String LF "b") ++ CRLF ++ CRLF)%string.
Proof.
  assert (W : wf (root dos_source) = true) by (vm_compute; reflexivity).
  assert (R : main posix dos_source = (Return tt, snd (main posix dos_source)))
    by (vm_compute; reflexivity).
  assert (E : selected (root dos_source) = [] ++ ["a.rs"] :: []) by (vm_compute; reflexivity).
  assert (L : lookup (root dos_source) ["a.rs"] =
              Some (File "a.rs" true ("a" ++ CRLF ++ "b"))) by (vm_compute; reflexivity).
  split; [exact W|]. split; [exact R|]. split; [exact E|]. split; [exact L|].
  rewrite (proj1 (C5_content_is_text_read posix dos_source _ _ _ _ _ _ _ W R E L)).
  vm_compute. reflexivity.
Defined.

(** C5 as stated fails: a selected file whose decoded text is "a", CR,
    LF, "b".  The run completes; the content portion of its block is
    "a", LF, "b"; the decoded text with its CR LF occurs nowhere in the
    output. *)
Lemma C5_counterexample :
  wf (root dos_source) = true /\
  main posix dos_source = (Return tt, snd (main posix dos_source)) /\
  selected (root dos_source) = [["a.rs"]] /\
  lookup (root dos_source) ["a.rs"] = Some (File "a.rs" true ("a" ++ CRLF ++ "b")) /\
  decode_utf8_ignore ("a" ++ CRLF ++ "b") = ("a" ++ CRLF ++ "b")%string /\
  exists out,
    output (snd (main posix dos_source)) = Some out /\
    out = (header (cwd dos_source) ["a.rs"] ++ ("a" ++ String LF "b") ++ CRLF ++ CRLF)%string /\
    out <> (header (cwd dos_source) ["a.rs"] ++ ("a" ++ CRLF ++ "b") ++ CRLF ++ CRLF)%string /\
    occurrences ("a" ++ CRLF ++ "b") out = 0.
Proof.
  split; [vm_compute; reflexivity|].
  split; [vm_compute; reflexivity|].
  split; [vm_compute; reflexivity|].
  split; [vm_compute; reflexivity|].
  split; [vm_compute; reflexivity|].
  eexists. split; [vm_compute; reflexivity|].
  split; [vm_compute; reflexivity|].
  split; [vm_compute; discriminate | vm_compute; reflexivity].
Qed.

(** *** Re-running *)

Lemma during_not_dir (c : path) (con : list string) (k : nat) (d : string)
      (base : list node) :
  absent "combined.txt" base ->
  dir_exists (root (during c con k d base)) OUTPUT = false.
Proof.
  intros A. unfold dir_exists, during. cbn [root]. rewrite lookup_output.
  now rewrite (entry_insert_same "combined.txt" (File "combined.txt" true d) k base eq_refl A).
Qed.

Lemma during_sources (c : path) (con : list string) (k : nat) (d : string)
      (base : list node) :
  absent "combined.txt" base ->
  sources (root (during c con k d base)) = base.
Proof.
  intros A. unfold sources, during. cbn [root].
  rewrite (remove_insert "combined.txt" (File "combined.txt" true d) k base eq_refl).
  now apply remove_absent.
Qed.

(** A run that returns, in terms of the tree without [combined.txt]. *)
Lemma completed_run_sources (h : host) (w w' : world) :
  main h w = (Return tt, w') ->
  dir_exists (root w) OUTPUT = false /\
  emit (cwd w) (sources (root w)) (selected (sources (root w))) =
    (blocks (cwd w) (sources (root w)) (selected (sources (root w))), None) /\
  w' = during (cwd w) (console w ++ [msg_start; msg_done]) (new_entry_pos h)
              (blocks (cwd w) (sources (root w)) (selected (sources (root w))))
              (sources (root w)).
Proof.
  intros R.
  destruct (dir_exists (root w) OUTPUT) eqn:D.
  { rewrite (main_output_is_dir h w D) in R. discriminate. }
  split; [reflexivity|].
  rewrite (main_spec h w D) in R.
  destruct (snd (emit (cwd w) (sources (root w)) (selected (sources (root w)))))
    as [e|] eqn:S; cbn [finish lines_after] in R; [discriminate|].
  destruct (emit_completed _ _ _ S) as [F E].
  split; [apply emit_readable; [exact F | exact (emit_completed_encodable _ _ _ S)]|].
  rewrite E in R. now injection R as <-.
Qed.




(** C7.  Undecodable bytes never stop the run.  On a well-formed tree
    whose [combined.txt] is not a directory, whose selected paths are
    readable regular files and whose path names (those of the working
    directory and of the selected paths) are well-formed UTF-8, the run
    returns whatever bytes the files hold, and the output holds the
    block of every selected path.  The text of a file is its bytes with
    the ill-formed sequences dropped (then read with universal
    newlines): it is well-formed UTF-8, it is obtained from the bytes by
    deletions only, a well-formed prefix is kept and a byte that cannot
    start a sequence is dropped alone, and well-formed data is kept
    whole.  For all bytes, decoding starts afresh at every byte that is
    not a continuation byte, keeps a well-formed sequence, and drops a
    byte with the continuation bytes behind it when no prefix of them is
    a well-formed sequence: together these fix the decoded text. *)
Theorem C7_undecodable_bytes_are_dropped (h : host) (w : world) :
  wf (root w) = true ->
  dir_exists (root w) OUTPUT = false ->
  (forall f, In f (selected (root w)) ->
             exists n data, lookup (root w) f = Some (File n true data)) ->
  (forall n, In n (cwd w) -> utf8_valid n = true) ->
  (forall f n, In f (selected (root w)) -> In n f -> utf8_valid n = true) ->
  (exists w',
     main h w = (Return tt, w') /\
     output w' = Some (blocks (cwd w) (root w) (selected (root w)))) /\
  (forall f n data,
     In f (selected (root w)) -> lookup (root w) f = Some (File n true data) ->
     content_of (root w) f = universal_newlines (utf8_ignore data) /\
     utf8_valid (utf8_ignore data) = true /\
     subseq (utf8_ignore data) data /\
     (forall v bad rest,
        utf8_valid v = true -> invalid_start bad = true ->
        data = (v ++ String bad rest)%string ->
        utf8_ignore data = (v ++ utf8_ignore rest)%string) /\
     (utf8_valid data = true -> utf8_ignore data = data)) /\
  ((forall a c s,
      is_cont c = false ->
      utf8_ignore (a ++ String c s) = (utf8_ignore a ++ utf8_ignore (String c s))%string) /\
   (forall v s,
      utf8_valid v = true -> utf8_ignore (v ++ s) = (v ++ utf8_ignore s)%string) /\
   (forall b0 t,
      all_cont t = true ->
      (forall k, 1 <= k -> utf8_valid (substring 0 k (String b0 t)) = false) ->
      utf8_ignore (String b0 t) = EmptyString)).
Proof.
  intros W D F Hc Hl. split; [|split].
  - assert (F' : Forall (readable_file (root w)) (selected (root w))).
    { apply Forall_forall. intros f Hf. exact (F f Hf). }
    assert (V : Forall (encodable (cwd w)) (selected (root w))).
    { apply Forall_forall. intros f Hf. apply path_line_valid; [exact Hc|].
      intros n Hn. exact (Hl f n Hf Hn). }
    eexists. split; [exact (run_returns h w W D F' V)|].
    apply output_during, sources_absent.
  - intros f n data Hf L.
    split; [unfold content_of, text_of, read_at; now rewrite L|].
    split; [apply utf8_ignore_valid|].
    split; [apply utf8_ignore_subseq|].
    split; [|apply utf8_ignore_id].
    intros v bad rest V B ->.
    now rewrite (utf8_ignore_app v _ V), (utf8_ignore_invalid_start bad rest B).
  - split; [exact (fun a c s => utf8_ignore_resync c a s)|].
    split; [exact utf8_ignore_app | exact utf8_ignore_no_sequence].
Qed.

Lemma C7_witness :
  wf (root garbled) = true /\
  dir_exists (root garbled) OUTPUT = false /\
  (forall f, In f (selected (root garbled)) ->
             exists n data, lookup (root garbled) f = Some (File n true data)) /\
  (forall n, In n (cwd garbled) -> utf8_valid n = true) /\
  (forall f n, In f (selected (root garbled)) -> In n f -> utf8_valid n = true) /\
  exists w',
    main posix garbled = (Return tt, w') /\
    output w' = Some (block (cwd garbled) ["lib.rs"] "abcd").
Proof.
  assert (W : wf (root garbled) = true) by (vm_compute; reflexivity).
  assert (D : dir_exists (root garbled) OUTPUT = false) by (vm_compute; reflexivity).
  assert (F : forall f, In f (selected (root garbled)) ->
              exists n data, lookup (root garbled) f = Some (File n true data)).
  { intros f [<-|[]]. eexists. eexists. vm_compute. reflexivity. }
  assert (Hc : forall n, In n (cwd garbled) -> utf8_valid n = true).
  { intros n [<-|[]]. reflexivity. }
  assert (Hl : forall f n, In f (selected (root garbled)) -> In n f -> utf8_valid n = true).
  { intros f n [<-|[]] [<-|[]]. reflexivity. }
  split; [exact W|]. split; [exact D|]. split; [exact F|].
  split; [exact Hc|]. split; [exact Hl|].
  destruct (proj1 (C7_undecodable_bytes_are_dropped posix garbled W D F Hc Hl)) as [w' [R O]].
  exists w'. split; [exact R|]. rewrite O. vm_compute. reflexivity.
Defined.

(** *** What a run leaves untouched *)

Lemma sources_idem (r : list node) : sources (sources r) = sources r.
Proof. unfold sources. apply remove_absent, absent_remove. Qed.

(** Every run, returning or raising, ends in the world it started from
    or in one that differs from it only by [combined.txt]. *)
Lemma final_world (h : host) (w : world) :
  snd (main h w) = w \/
  (dir_exists (root w) OUTPUT = false /\
   exists con d,
     snd (main h w) = during (cwd w) con (new_entry_pos h) d (sources (root w))).
Proof.
  destruct (dir_exists (root w) OUTPUT) eqn:D.
  - left. now rewrite (main_output_is_dir h w D).
  - right. split; [reflexivity|]. rewrite (main_spec h w D). cbn [snd]. eauto.
Qed.

(** C8.  A run, whether it returns or raises, changes nothing in the
    tree but the entry [combined.txt] of the working directory: the
    working directory is the same, the other entries of its listing are
    the same in the same order, and every path other than
    [combined.txt] denotes after the run what it denoted before.  The
    world of the model is the tree and the console; the script reaches
    nothing else. *)
Theorem C8_only_combined_txt_changes (h : host) (w : world) (p : path) :
  p <> [] -> p <> OUTPUT ->
  lookup (root (snd (main h w))) p = lookup (root w) p /\
  cwd (snd (main h w)) = cwd w /\
  sources (root (snd (main h w))) = sources (root w).
Proof.
  intros Hne Hn.
  destruct (final_world h w) as [->|[D [con [d ->]]]]; [now repeat split|].
  assert (A : absent "combined.txt" (sources (root w))) by apply sources_absent.
  split; [|split].
  - unfold during. cbn [root].
    rewrite (lookup_insert_file _ _ _ _ _ _ A Hne Hn).
    exact (lookup_remove_file "combined.txt" (root w) p D Hne Hn).
  - reflexivity.
  - now apply during_sources.
Qed.

Lemma C8_witness :
  ["src"; "main.rs"] <> [] /\ ["src"; "main.rs"] <> OUTPUT /\
  lookup (root (snd (main posix project))) ["src"; "main.rs"] =
    Some (File "main.rs" true "fn main() {}").
Proof.
  assert (A : ["src"; "main.rs"] <> @nil string) by discriminate.
  assert (B : ["src"; "main.rs"] <> OUTPUT) by discriminate.
  split; [exact A|]. split; [exact B|].
  rewrite (proj1 (C8_only_combined_txt_changes posix project _ A B)).
  vm_compute. reflexivity.
Defined.

(** *** Nothing to collect *)

Lemma nothing_selected (r : list node) :
  wf r = true ->
  (forall f x, lookup r f = Some x ->
               ~ (criterion_rs f \/ criterion_pest f \/ criterion_cargo f)) ->
  selected r = [].
Proof.
  intros W N. destruct (selected r) as [|f l] eqn:E; [reflexivity|].
  exfalso. assert (Hin : In f (selected r)) by (rewrite E; now left).
  destruct (selected_criterion r f W Hin) as [[x L] C].
  exact (N f x L C).
Qed.

(** C9 (as amended).  If no entry of the working tree, regular file or
    directory, meets any of the three selection criteria, and
    [combined.txt], when present, is not a directory, then the run
    returns, [combined.txt] exists afterwards and is empty (a previous
    one having been deleted), and both console messages are printed. *)
Theorem C9_empty_selection_empty_output (h : host) (w : world) :
  wf (root w) = true ->
  dir_exists (root w) OUTPUT = false ->
  (forall f x, lookup (root w) f = Some x ->
               ~ (criterion_rs f \/ criterion_pest f \/ criterion_cargo f)) ->
  exists w',
    main h w = (Return tt, w') /\
    output w' = Some EmptyString /\
    console w' = console w ++ [msg_start; msg_done].
Proof.
  intros W D N. pose proof (nothing_selected (root w) W N) as E.
  assert (F : Forall (readable_file (root w)) (selected (root w)))
    by (rewrite E; constructor).
  assert (V : Forall (encodable (cwd w)) (selected (root w)))
    by (rewrite E; constructor).
  eexists. split; [exact (run_returns h w W D F V)|].
  split; [|reflexivity].
  rewrite output_during by apply sources_absent. now rewrite E.
Qed.

Lemma C9_witness :
  wf (root docs_only) = true /\
  dir_exists (root docs_only) OUTPUT = false /\
  (forall f x, lookup (root docs_only) f = Some x ->
               ~ (criterion_rs f \/ criterion_pest f \/ criterion_cargo f)) /\
  exists w',
    main posix docs_only = (Return tt, w') /\
    output w' = Some EmptyString /\
    console w' = console docs_only ++ [msg_start; msg_done].
Proof.
  assert (W : wf (root docs_only) = true) by (vm_compute; reflexivity).
  assert (D : dir_exists (root docs_only) OUTPUT = false) by (vm_compute; reflexivity).
  assert (N : forall f x, lookup (root docs_only) f = Some x ->
              ~ (criterion_rs f \/ criterion_pest f \/ criterion_cargo f)).
  { intros f x L C. exact (criterion_selected (root docs_only) f x L C). }
  split; [exact W|]. split; [exact D|]. split; [exact N|].
  exact (C9_empty_selection_empty_output posix docs_only W D N).
Defined.

(** C9 as stated fails: a working tree that holds one empty directory
    called [a.rs] and no regular file at all.  No file meets a criterion,
    yet the directory is selected: the run writes its header, raises
    [IsADirectoryError] on reading it, leaves a non-empty [combined.txt]
    and does not print the second message. *)
Lemma C9_counterexample :
  wf (root crate_dir) = true /\
  dir_exists (root crate_dir) OUTPUT = false /\
  (forall f n rd data, lookup (root crate_dir) f <> Some (File n rd data)) /\
  main posix crate_dir = (Raise (IsADirectoryError ["a.rs"]), snd (main posix crate_dir)) /\
  output (snd (main posix crate_dir)) = Some (header ["w"] ["a.rs"]) /\
  output (snd (main posix crate_dir)) <> Some EmptyString /\
  console (snd (main posix crate_dir)) = [msg_start].
Proof.
  split; [vm_compute; reflexivity|].
  split; [vm_compute; reflexivity|].
  split.
  { intros f n rd data. destruct f as [|a [|b q]].
    - discriminate.
    - unfold crate_dir. cbn [root]. rewrite lookup_cons. unfold entry. cbn [find].
      destruct (named a (Dir "a.rs" true [])); discriminate.
    - unfold crate_dir. cbn [root]. rewrite lookup_cons. unfold entry. cbn [find].
      destruct (named a (Dir "a.rs" true [])); discriminate. }
  split; [vm_compute; reflexivity|].
  split; [vm_compute; reflexivity|].
  split; [vm_compute; discriminate | vm_compute; reflexivity].
Qed.

(** C10.  The name [combined.txt] meets none of the three name tests: it
    does not end in [.rs] or [.pest] and is not [Cargo.toml].  So in a
    completed run no selected path is [combined.txt], or is called
    [combined.txt] in any directory, and the output consists of the
    blocks of the selected paths only; the selection and the texts are
    those of the tree from which a previous [combined.txt] has been
    removed, in which no such entry exists. *)
Theorem C10_output_is_never_collected (h : host) (w w' : world) :
  wf (root w) = true ->
  main h w = (Return tt, w') ->
  (~ ends_with "combined.txt" ".rs" /\
   ~ ends_with "combined.txt" ".pest" /\
   "combined.txt" <> "Cargo.toml") /\
  (forall f, In f (selected (root w)) ->
             basename f <> "combined.txt" /\ f <> OUTPUT) /\
  output w' = Some (blocks (cwd w) (root w) (selected (root w))) /\
  blocks (cwd w) (root w) (selected (root w)) =
    blocks (cwd w) (sources (root w)) (selected (sources (root w))) /\
  lookup (sources (root w)) OUTPUT = None.
Proof.
  intros W R.
  destruct output_name_unselected as [O1 [O2 O3]].
  split.
  { split; [|split].
    - intros E. apply selector_rs in E. congruence.
    - intros E. apply selector_pest in E. congruence.
    - discriminate. }
  split.
  { intros f Hf. pose proof (selected_shape _ _ Hf) as [Hne Hb].
    split; [exact Hb | now apply not_output_by_name]. }
  split; [exact (completed_output h w w' W R)|].
  split.
  - destruct (completed_run_sources h w w' R) as [D [E _]].
    destruct (completed_run h w w' W R) as [_ [F _]].
    pose proof (emit_sources (cwd w) (root w) W D) as X.
    rewrite E, (emit_readable _ _ _ F (completed_run_encodable h w w' W R)) in X.
    now injection X.
  - rewrite lookup_output. apply entry_absent, sources_absent.
Qed.

Lemma C10_witness :
  wf (root project) = true /\
  main posix project = (Return tt, snd (main posix project)) /\
  lookup (root project) OUTPUT =
    Some (File "combined.txt" true "left over from an earlier run") /\
  ~ In OUTPUT (selected (root project)) /\
  output (snd (main posix project)) =
    Some (blocks (cwd project) (root project)
                 [["src"; "main.rs"]; ["grammar"; "expr.pest"]; ["Cargo.toml"]]).
Proof.
  assert (W : wf (root project) = true) by (vm_compute; reflexivity).
  assert (R : main posix project = (Return tt, snd (main posix project)))
    by (vm_compute; reflexivity).
  pose proof (C10_output_is_never_collected posix project _ W R) as [_ [S [O _]]].
  split; [exact W|]. split; [exact R|].
  split; [vm_compute; reflexivity|].
  split; [intros H; exact (proj2 (S OUTPUT H) eq_refl) | exact O].
Defined.

End Claims.

(* ================================================================= *)
(** ** Further properties of the script *)

Module Extras.
Import Text FS Script Run TextFacts FSFacts GlobFacts RunFacts Claims Examples.

(** X1.  A run that returns has read every selected path: on a
    well-formed tree, if the run returns then [combined.txt] was not a
    directory, every selected path is a readable regular file and every
    path line could be encoded. *)
Theorem X1_returning_run_read_every_selected_path (h : host) (w : world) :
  wf (root w) = true ->
  fst (main h w) = Return tt ->
  dir_exists (root w) OUTPUT = false /\
  Forall (readable_file (root w)) (selected (root w)) /\
  Forall (encodable (cwd w)) (selected (root w)).
Proof.
  intros W R. destruct (main h w) as [r w'] eqn:M. cbn [fst] in R. subst r.
  destruct (completed_run h w w' W M) as [D [F _]].
  split; [exact D|]. split; [exact F|].
  exact (completed_run_encodable h w w' W M).
Qed.

Lemma X1_witness :
  wf (root project) = true /\
  fst (main posix project) = Return tt /\
  dir_exists (root project) OUTPUT = false /\
  Forall (readable_file (root project)) (selected (root project)) /\
  Forall (encodable (cwd project)) (selected (root project)).
Proof.
  assert (W : wf (root project) = true) by (vm_compute; reflexivity).
  assert (R : fst (main posix project) = Return tt) by (vm_compute; reflexivity).
  split; [exact W|]. split; [exact R|].
  exact (X1_returning_run_read_every_selected_path posix project W R).
Defined.

(** X2.  When [combined.txt] is a directory the run stops at [unlink]
    with [IsADirectoryError]: nothing is printed and the tree is left as
    it was. *)
Theorem X2_output_directory_stops_the_run (h : host) (w : world) :
  dir_exists (root w) OUTPUT = true ->
  main h w = (Raise (IsADirectoryError OUTPUT), w).
Proof. intros D. exact (main_output_is_dir h w D). Qed.

Lemma X2_witness :
  dir_exists (root blocked) OUTPUT = true /\
  main posix blocked = (Raise (IsADirectoryError OUTPUT), blocked).
Proof.
  assert (D : dir_exists (root blocked) OUTPUT = true) by (vm_compute; reflexivity).
  split; [exact D|].
  exact (X2_output_directory_stops_the_run posix blocked D).
Defined.

(** X3.  What a run prints: both messages when it returns; the first
    message alone when it raises while collecting; nothing when
    [combined.txt] is a directory.  Earlier console lines are kept. *)
Theorem X3_console_lines (h : host) (w : world) :
  console (snd (main h w)) =
  console w ++
  match fst (main h w) with
  | Return _ => [msg_start; msg_done]
  | Raise _ => if dir_exists (root w) OUTPUT then [] else [msg_start]
  end.
Proof.
  destruct (dir_exists (root w) OUTPUT) eqn:D.
  - rewrite (main_output_is_dir h w D). cbn [fst snd]. now rewrite app_nil_r.
  - rewrite (main_spec h w D). cbn [fst snd]. unfold during. cbn [console].
    now destruct (snd (emit (cwd w) (sources (root w)) (selected (sources (root w))))).
Qed.

Lemma emit_stops (c : path) (r : list node) (pre post : list path) (f : path) (e : exn) :
  Forall (readable_file r) pre -> Forall (encodable c) pre -> encodable c f ->
  read_at r f = Raise e ->
  emit c r (pre ++ f :: post) = ((blocks c r pre ++ header c f)%string, Some e).
Proof.
  intros F V Vf E. unfold encodable in Vf.
  induction F as [|g pre Hg Hpre IH]; cbn [app emit blocks].
  - now rewrite Vf, E.
  - inversion V as [|? ? Vg Vpre]; subst. unfold encodable in Vg.
    now rewrite Vg, (readable_read_at r g Hg), (IH Vpre), sapp_assoc.
Qed.

Lemma unreadable_raises (r : list node) (f : path) :
  (exists x, lookup r f = Some x) -> ~ readable_file r f ->
  exists e, read_at r f = Raise e /\ (e = IsADirectoryError f \/ e = PermissionError f).
Proof.
  intros [x L] N. unfold read_at. rewrite L.
  destruct x as [n [|] d | n a kids].
  - exfalso. apply N. now exists n, d.
  - eauto.
  - eauto.
Qed.

Lemma names_encodable (c : path) (l : list path) :
  (forall n, In n c -> utf8_valid n = true) ->
  (forall g n, In g l -> In n g -> utf8_valid n = true) ->
  Forall (encodable c) l.
Proof.
  intros Hc Hl. apply Forall_forall. intros g Hg.
  apply path_line_valid; [exact Hc|]. intros n Hn. exact (Hl g n Hg Hn).
Qed.

(** X4.  With path names that are well-formed UTF-8, the first selected
    path that is not a readable regular file stops the run: the
    exception is [IsADirectoryError] or [PermissionError] for that path,
    [combined.txt] holds the complete blocks of the paths before it
    followed by the header of the failing path, nothing of the paths
    behind it, and the second message is not printed. *)
Theorem X4_first_unreadable_path_stops_the_run
        (h : host) (w : world) (pre post : list path) (f : path) :
  wf (root w) = true ->
  dir_exists (root w) OUTPUT = false ->
  selected (root w) = pre ++ f :: post ->
  (forall n, In n (cwd w) -> utf8_valid n = true) ->
  (forall g n, In g (pre ++ [f]) -> In n g -> utf8_valid n = true) ->
  Forall (readable_file (root w)) pre ->
  ~ readable_file (root w) f ->
  exists e,
    (e = IsADirectoryError f \/ e = PermissionError f) /\
    read_at (root w) f = Raise e /\
    fst (main h w) = Raise e /\
    output (snd (main h w)) =
      Some (blocks (cwd w) (root w) pre ++ header (cwd w) f)%string /\
    console (snd (main h w)) = console w ++ [msg_start].
Proof.
  intros W D E Hc Hl F N.
  assert (Hin : In f (selected (root w))) by (rewrite E; apply in_elt).
  destruct (selected_criterion (root w) f W Hin) as [X _].
  destruct (unreadable_raises (root w) f X N) as [e [Re K]].
  assert (V : Forall (encodable (cwd w)) (pre ++ [f])) by now apply names_encodable.
  apply Forall_app in V. destruct V as [Vpre Vf]. inversion Vf as [|? ? Vf' _]; subst.
  exists e. split; [exact K|]. split; [exact Re|].
  rewrite (main_wf h w W D), E, (emit_stops _ _ _ _ _ _ F Vpre Vf' Re).
  cbn [fst snd finish lines_after]. split; [reflexivity|].
  split; [apply output_during, sources_absent | reflexivity].
Qed.

Lemma X4_witness :
  wf (root locked) = true /\
  dir_exists (root locked) OUTPUT = false /\
  selected (root locked) = [["a.rs"]] ++ ["b.rs"] :: [["c.rs"]] /\
  (forall n, In n (cwd locked) -> utf8_valid n = true) /\
  (forall g n, In g ([["a.rs"]] ++ [["b.rs"]]) -> In n g -> utf8_valid n = true) /\
  Forall (readable_file (root locked)) [["a.rs"]] /\
  ~ readable_file (root locked) ["b.rs"] /\
  exists e,
    (e = IsADirectoryError ["b.rs"] \/ e = PermissionError ["b.rs"]) /\
    read_at (root locked) ["b.rs"] = Raise e /\
    fst (main posix locked) = Raise e /\
    output (snd (main posix locked)) =
      Some (blocks (cwd locked) (root locked) [["a.rs"]] ++
            header (cwd locked) ["b.rs"])%string /\
    console (snd (main posix locked)) = console locked ++ [msg_start].
Proof.
  assert (W : wf (root locked) = true) by (vm_compute; reflexivity).
  assert (D : dir_exists (root locked) OUTPUT = false) by (vm_compute; reflexivity).
  assert (E : selected (root locked) = [["a.rs"]] ++ ["b.rs"] :: [["c.rs"]])
    by (vm_compute; reflexivity).
  assert (Hc : forall n, In n (cwd locked) -> utf8_valid n = true).
  { intros n [<-|[]]. reflexivity. }
  assert (Hl : forall g n, In g ([["a.rs"]] ++ [["b.rs"]]) -> In n g -> utf8_valid n = true).
  { intros g n [<-|[<-|[]]] [<-|[]]; reflexivity. }
  assert (F : Forall (readable_file (root locked)) [["a.rs"]]).
  { constructor; [|constructor]. exists "a.rs", "x". vm_compute. reflexivity. }
  assert (N : ~ readable_file (root locked) ["b.rs"]).
  { intros [n [d L]]. vm_compute in L. discriminate. }
  split; [exact W|]. split; [exact D|]. split; [exact E|].
  split; [exact Hc|]. split; [exact Hl|].
  split; [exact F|]. split; [exact N|].
  exact (X4_first_unreadable_path_stops_the_run posix locked _ _ _ W D E Hc Hl F N).
Defined.

(** X5.  The host does not matter: whatever [os.linesep] is and wherever
    the operating system lists the new file, the run has the same
    outcome, leaves the same bytes in [combined.txt], prints the same
    lines and leaves the same other entries. *)
Theorem X5_same_result_on_every_host (h1 h2 : host) (w : world) :
  fst (main h1 w) = fst (main h2 w) /\
  output (snd (main h1 w)) = output (snd (main h2 w)) /\
  console (snd (main h1 w)) = console (snd (main h2 w)) /\
  sources (root (snd (main h1 w))) = sources (root (snd (main h2 w))).
Proof.
  destruct (dir_exists (root w) OUTPUT) eqn:D.
  - now rewrite !(main_output_is_dir _ w D).
  - rewrite !(main_spec _ w D). cbn [fst snd].
    assert (A : absent "combined.txt" (sources (root w))) by apply sources_absent.
    rewrite !output_during, !during_sources by exact A.
    repeat split.
Qed.

(** X6.  Running again on the same host reproduces the first run: the
    same outcome, returning or raising, and exactly the same tree,
    [combined.txt] included. *)
Theorem X6_second_run_reproduces_the_tree (h : host) (w : world) :
  fst (main h (snd (main h w))) = fst (main h w) /\
  root (snd (main h (snd (main h w)))) = root (snd (main h w)).
Proof.
  destruct (dir_exists (root w) OUTPUT) eqn:D.
  - rewrite (main_output_is_dir h w D). cbn [snd].
    now rewrite (main_output_is_dir h w D).
  - rewrite (main_spec h w D). cbn [fst snd].
    assert (A : absent "combined.txt" (sources (root w))) by apply sources_absent.
    rewrite main_spec by (now apply during_not_dir).
    rewrite (during_sources _ _ _ _ _ A). cbn [fst snd]. unfold during at 1 2 3.
    cbn [cwd]. split; reflexivity.
Qed.

Lemma blocks_empty_iff (c : path) (r : list node) (l : list path) :
  blocks c r l = EmptyString <-> l = [].
Proof.
  destruct l as [|f l]; [split; reflexivity|].
  split; [|discriminate]. cbn [blocks]. unfold block, header.
  change banner with "////////////////////". cbn [append]. discriminate.
Qed.

(** X7.  After a completed run [combined.txt] is empty exactly when no
    path was selected. *)
Theorem X7_empty_output_iff_nothing_selected (h : host) (w w' : world) :
  wf (root w) = true ->
  main h w = (Return tt, w') ->
  output w' = Some EmptyString <-> selected (root w) = [].
Proof.
  intros W R. rewrite (completed_output h w w' W R). split.
  - intros E. injection E as E. now apply blocks_empty_iff in E.
  - intros ->. reflexivity.
Qed.

Lemma X7_witness :
  wf (root docs_only) = true /\
  main posix docs_only = (Return tt, snd (main posix docs_only)) /\
  (output (snd (main posix docs_only)) = Some EmptyString <->
   selected (root docs_only) = []).
Proof.
  assert (W : wf (root docs_only) = true) by (vm_compute; reflexivity).
  assert (R : main posix docs_only = (Return tt, snd (main posix docs_only)))
    by (vm_compute; reflexivity).
  split; [exact W|]. split; [exact R|].
  exact (X7_empty_output_iff_nothing_selected posix docs_only _ W R).
Defined.

(** *** Well-formed output *)

Lemma emit_valid (c : path) (r : list node) (l : list path) :
  (forall n, In n c -> utf8_valid n = true) ->
  (forall f n, In f l -> In n f -> utf8_valid n = true) ->
  utf8_valid (fst (emit c r l)) = true.
Proof.
  intros Hc. induction l as [|f l IH]; intros Hl; [reflexivity|].
  assert (Hh : utf8_valid (header c f) = true).
  { apply header_valid; [exact Hc|]. intros n Hn. apply (Hl f n); [now left | exact Hn]. }
  cbn [emit]. destruct (utf8_valid (path_line c f)); [|reflexivity].
  destruct (read_at r f) as [text|e] eqn:R; [|exact Hh].
  assert (IH' : utf8_valid (fst (emit c r l)) = true).
  { apply IH. intros g n Hg Hn. apply (Hl g n); [now right | exact Hn]. }
  destruct (emit c r l) as [rest stop]. cbn [fst] in *.
  unfold block. rewrite !sapp_assoc.
  apply utf8_valid_app; [exact Hh|].
  apply utf8_valid_app; [exact (read_at_valid r f text R)|].
  apply (utf8_valid_app CRLF); [reflexivity|].
  apply (utf8_valid_app CRLF); [reflexivity | exact IH'].
Qed.

(** X8.  When the names of the working directory and of the selected
    paths are well-formed UTF-8, every run that gets past the removal of
    the old output, returning or raising, leaves well-formed UTF-8 in
    [combined.txt], whatever bytes the sources hold. *)
Theorem X8_output_is_well_formed_utf8 (h : host) (w : world) :
  wf (root w) = true ->
  dir_exists (root w) OUTPUT = false ->
  (forall n, In n (cwd w) -> utf8_valid n = true) ->
  (forall f n, In f (selected (root w)) -> In n f -> utf8_valid n = true) ->
  exists out, output (snd (main h w)) = Some out /\ utf8_valid out = true.
Proof.
  intros W D Hc Hl. rewrite (main_wf h w W D). cbn [snd].
  rewrite output_during by apply sources_absent.
  eexists. split; [reflexivity|]. now apply emit_valid.
Qed.

Lemma X8_witness :
  wf (root garbled) = true /\
  dir_exists (root garbled) OUTPUT = false /\
  (forall n, In n (cwd garbled) -> utf8_valid n = true) /\
  (forall f n, In f (selected (root garbled)) -> In n f -> utf8_valid n = true) /\
  utf8_valid ("ab" ++ String "255"%char "cd") = false /\
  exists out, output (snd (main posix garbled)) = Some out /\ utf8_valid out = true.
Proof.
  assert (W : wf (root garbled) = true) by (vm_compute; reflexivity).
  assert (D : dir_exists (root garbled) OUTPUT = false) by (vm_compute; reflexivity).
  assert (Hc : forall n, In n (cwd garbled) -> utf8_valid n = true).
  { intros n [<-|[]]. reflexivity. }
  assert (Hl : forall f n, In f (selected (root garbled)) -> In n f -> utf8_valid n = true).
  { intros f n [<-|[]] [<-|[]]. reflexivity. }
  split; [exact W|]. split; [exact D|]. split; [exact Hc|]. split; [exact Hl|].
  split; [vm_compute; reflexivity|].
  exact (X8_output_is_well_formed_utf8 posix garbled W D Hc Hl).
Defined.

(** Reading a text that was itself read gives the same text. *)
Lemma read_twice (d : string) :
  universal_newlines (decode_utf8_ignore (universal_newlines (decode_utf8_ignore d))) =
  universal_newlines (decode_utf8_ignore d).
Proof.
  unfold decode_utf8_ignore.
  rewrite (utf8_ignore_id (universal_newlines (utf8_ignore d)))
    by apply universal_newlines_valid, utf8_ignore_valid.
  apply universal_newlines_id, universal_newlines_no_CR.
Qed.

(** X9.  Reading is idempotent: a readable file that holds the text read
    from another file (say, the content portion of a block saved as a
    file) is read as that same text, so collecting it reproduces the
    content unchanged. *)
Theorem X9_text_read_is_stable (r : list node) (f g : path) (n : string) (text : string) :
  text_of r f = Some text ->
  lookup r g = Some (File n true text) ->
  text_of r g = Some text.
Proof.
  intros T L. unfold text_of, read_at in *. rewrite L.
  destruct (lookup r f) as [[m [|] d|m kids]|]; try discriminate.
  injection T as <-. now rewrite read_twice.
Qed.

Lemma X9_witness :
  text_of [File "a.rs" true ("a" ++ CRLF ++ "b" ++ String "255"%char "c");
           File "b.rs" true ("a" ++ String LF "bc")] ["a.rs"] =
    Some ("a" ++ String LF "bc")%string /\
  lookup [File "a.rs" true ("a" ++ CRLF ++ "b" ++ String "255"%char "c");
          File "b.rs" true ("a" ++ String LF "bc")] ["b.rs"] =
    Some (File "b.rs" true ("a" ++ String LF "bc")) /\
  text_of [File "a.rs" true ("a" ++ CRLF ++ "b" ++ String "255"%char "c");
           File "b.rs" true ("a" ++ String LF "bc")] ["b.rs"] =
    Some ("a" ++ String LF "bc")%string.
Proof.
  assert (T : text_of [File "a.rs" true ("a" ++ CRLF ++ "b" ++ String "255"%char "c");
                       File "b.rs" true ("a" ++ String LF "bc")] ["a.rs"] =
              Some ("a" ++ String LF "bc")%string) by (vm_compute; reflexivity).
  assert (L : lookup [File "a.rs" true ("a" ++ CRLF ++ "b" ++ String "255"%char "c");
                      File "b.rs" true ("a" ++ String LF "bc")] ["b.rs"] =
              Some (File "b.rs" true ("a" ++ String LF "bc"))) by (vm_compute; reflexivity).
  split; [exact T|]. split; [exact L|].
  exact (X9_text_read_is_stable _ _ _ _ _ T L).
Defined.

(** *** Path lines identify the paths *)

Lemma has_char_app (c : ascii) (a b : string) :
  has_char c (a ++ b) = has_char c a || has_char c b.
Proof.
  induction a as [|x a IH]; [reflexivity|].
  cbn [append has_char]. now rewrite IH, orb_assoc.
Qed.

Lemma sapp_inv_head (a b c : string) : (a ++ b = a ++ c)%string -> b = c.
Proof.
  induction a as [|x a IH]; cbn [append]; intros E; [exact E|].
  injection E as E. now apply IH.
Qed.

Lemma sapp_inv_tail (t a b : string) : (a ++ t = b ++ t)%string -> a = b.
Proof.
  revert b. induction a as [|x a IH]; intros [|y b] E.
  - reflexivity.
  - apply (f_equal String.length) in E. cbn [append String.length] in E.
    rewrite sapp_length in E. lia.
  - apply (f_equal String.length) in E. cbn [append String.length] in E.
    rewrite sapp_length in E. lia.
  - cbn [append] in E. injection E as -> E. f_equal. now apply IH.
Qed.

(** Two names without separator that are followed by a separator in the
    same string are the same name. *)
Lemma slash_cut (x y a b : string) :
  has_char "/" x = false -> has_char "/" y = false ->
  (x ++ String "/" a = y ++ String "/" b)%string -> x = y /\ a = b.
Proof.
  revert y. induction x as [|c x IH]; intros [|d y] Hx Hy E; cbn [append] in E.
  - injection E as E. now split.
  - injection E as <- _. cbn [has_char] in Hy. discriminate.
  - injection E as -> _. cbn [has_char] in Hx. discriminate.
  - injection E as -> E. cbn [has_char] in Hx, Hy.
    apply orb_false_iff in Hx. apply orb_false_iff in Hy.
    destruct (IH y (proj2 Hx) (proj2 Hy) E) as [-> ->]. now split.
Qed.

Lemma no_slash_inside (x y b : string) :
  has_char "/" x = false -> x <> (y ++ String "/" b)%string.
Proof.
  intros H ->. rewrite has_char_app in H. cbn [has_char] in H.
  rewrite orb_true_r in H. discriminate.
Qed.

Lemma plain_parts (n : string) :
  plain_name n = true -> has_char "/" n = false /\ n <> EmptyString.
Proof.
  unfold plain_name. intros H. apply andb_true_iff in H. destruct H as [H1 H2].
  apply negb_true_iff in H1. apply negb_true_iff in H2.
  split; [exact H1 | now apply String.eqb_neq].
Qed.

Lemma join_cons2 (x y : string) (p : path) :
  join "/" (x :: y :: p) = (x ++ String "/" (join "/" (y :: p)))%string.
Proof. reflexivity. Qed.

Lemma join_nonempty (x : string) (p : path) :
  x <> EmptyString -> join "/" (x :: p) <> EmptyString.
Proof.
  intros Hx. destruct p as [|y p]; [exact Hx|].
  rewrite join_cons2. destruct x; [congruence | discriminate].
Qed.

(** Joining plain names with the separator loses nothing. *)
Lemma join_injective (p : path) :
  forall q, forallb plain_name p = true -> forallb plain_name q = true ->
            join "/" p = join "/" q -> p = q.
Proof.
  induction p as [|x p IH]; intros [|y q] Hp Hq E.
  - reflexivity.
  - cbn [forallb] in Hq. apply andb_true_iff in Hq. destruct Hq as [Hy _].
    apply plain_parts in Hy. destruct Hy as [_ Hy].
    exfalso. exact (join_nonempty y q Hy (eq_sym E)).
  - cbn [forallb] in Hp. apply andb_true_iff in Hp. destruct Hp as [Hx _].
    apply plain_parts in Hx. destruct Hx as [_ Hx].
    exfalso. exact (join_nonempty x p Hx E).
  - cbn [forallb] in Hp, Hq.
    apply andb_true_iff in Hp. destruct Hp as [Hx Hp].
    apply andb_true_iff in Hq. destruct Hq as [Hy Hq].
    destruct (plain_parts x Hx) as [Sx _]. destruct (plain_parts y Hy) as [Sy _].
    destruct p as [|x' p]; destruct q as [|y' q].
    + cbn [join] in E. now subst.
    + rewrite join_cons2 in E. change (join "/" [x]) with x in E.
      exfalso. exact (no_slash_inside x y _ Sx E).
    + rewrite join_cons2 in E. change (join "/" [y]) with y in E.
      exfalso. exact (no_slash_inside y x _ Sy (eq_sym E)).
    + rewrite !join_cons2 in E. destruct (slash_cut _ _ _ _ Sx Sy E) as [-> E'].
      f_equal. now apply IH.
Qed.

Lemma header_abs (c f g : path) :
  header c f = header c g -> str_abs (c ++ f) = str_abs (c ++ g).
Proof.
  unfold header. intros E.
  apply sapp_inv_head, sapp_inv_head, sapp_inv_head in E.
  exact (sapp_inv_tail _ _ _ E).
Qed.

(** X10.  With names that a file system accepts (not empty, without
    ["/"]), different paths get different headers: the path line of a
    block identifies the selected path. *)
Theorem X10_headers_identify_paths (c f g : path) :
  forallb plain_name c = true ->
  forallb plain_name f = true ->
  forallb plain_name g = true ->
  f <> g ->
  header c f <> header c g.
Proof.
  intros Hc Hf Hg N E. apply N.
  apply header_abs in E. unfold str_abs in E. apply sapp_inv_head in E.
  apply join_injective in E.
  - exact (app_inv_head c f g E).
  - rewrite forallb_app. now rewrite Hc, Hf.
  - rewrite forallb_app. now rewrite Hc, Hg.
Qed.

Lemma X10_witness :
  forallb plain_name (cwd project) = true /\
  forallb plain_name ["src"; "main.rs"] = true /\
  forallb plain_name ["src.main.rs"] = true /\
  ["src"; "main.rs"] <> ["src.main.rs"] /\
  header (cwd project) ["src"; "main.rs"] <> header (cwd project) ["src.main.rs"].
Proof.
  assert (Hc : forallb plain_name (cwd project) = true) by (vm_compute; reflexivity).
  assert (Hf : forallb plain_name ["src"; "main.rs"] = true) by (vm_compute; reflexivity).
  assert (Hg : forallb plain_name ["src.main.rs"] = true) by (vm_compute; reflexivity).
  assert (N : ["src"; "main.rs"] <> ["src.main.rs"]) by discriminate.
  split; [exact Hc|]. split; [exact Hf|]. split; [exact Hg|]. split; [exact N|].
  exact (X10_headers_identify_paths _ _ _ Hc Hf Hg N).
Defined.

(** *** The exceptions of a run *)

Lemma emit_stop_origin (c : path) (r : list node) (l : list path) (e : exn) :
  snd (emit c r l) = Some e ->
  exists f, In f l /\ (e = UnicodeEncodeError (path_line c f) \/ read_at r f = Raise e).
Proof.
  induction l as [|f l IH]; cbn [emit]; [discriminate|].
  destruct (utf8_valid (path_line c f)).
  - destruct (read_at r f) as [text|e'] eqn:R.
    + destruct (emit c r l) as [rest stop]. cbn [snd] in *. intros S.
      destruct (IH S) as [g [Hg Rg]]. exists g. split; [now right | exact Rg].
    + cbn [snd]. intros S. injection S as ->. exists f. split; [now left | now right].
  - cbn [snd]. intros S. injection S as <-. exists f. split; now left.
Qed.

(** X11.  On a well-formed tree a run never raises [FileNotFoundError],
    and an [IsADirectoryError] or [PermissionError] that it raises is
    for [combined.txt] or for a selected path. *)
Theorem X11_no_missing_file_error (h : host) (w : world) (e : exn) :
  wf (root w) = true ->
  fst (main h w) = Raise e ->
  (forall p, e <> FileNotFoundError p) /\
  (forall p, e = IsADirectoryError p \/ e = PermissionError p ->
             p = OUTPUT \/ In p (selected (root w))).
Proof.
  intros W R. destruct (dir_exists (root w) OUTPUT) eqn:D.
  - rewrite (main_output_is_dir h w D) in R. cbn [fst] in R. injection R as <-.
    split; [discriminate|]. intros p [E|E]; [injection E as <-; now left | discriminate].
  - rewrite (main_wf h w W D) in R. cbn [fst] in R.
    destruct (snd (emit (cwd w) (root w) (selected (root w)))) as [e'|] eqn:S;
      cbn [finish] in R; [|discriminate].
    injection R as ->.
    destruct (emit_stop_origin _ _ _ _ S) as [f [Hf [K|Rf]]].
    + subst e. split; [discriminate|]. intros p [E|E]; discriminate.
    + destruct (selected_criterion (root w) f W Hf) as [[x L] _].
      unfold read_at in Rf. rewrite L in Rf.
      destruct x as [n [|] d|n a kids]; [discriminate | |]; injection Rf as <-.
      * split; [discriminate|].
        intros p [E|E]; [discriminate | injection E as <-; now right].
      * split; [discriminate|].
        intros p [E|E]; [injection E as <-; now right | discriminate].
Qed.

Lemma X11_witness :
  wf (root crate_dir) = true /\
  fst (main posix crate_dir) = Raise (IsADirectoryError ["a.rs"]) /\
  (forall p, IsADirectoryError ["a.rs"] <> FileNotFoundError p) /\
  (["a.rs"] = OUTPUT \/ In ["a.rs"] (selected (root crate_dir))).
Proof.
  assert (W : wf (root crate_dir) = true) by (vm_compute; reflexivity).
  assert (R : fst (main posix crate_dir) = Raise (IsADirectoryError ["a.rs"]))
    by (vm_compute; reflexivity).
  split; [exact W|]. split; [exact R|].
  destruct (X11_no_missing_file_error posix crate_dir _ W R) as [A B].
  split; [exact A | exact (B ["a.rs"] (or_introl eq_refl))].
Defined.

(** *** The size of the output *)

Lemma block_length (c f : path) (text : string) :
  String.length (block c f text) =
  52 + String.length (str_abs (c ++ f)) + String.length text.
Proof.
  unfold block, header. rewrite !sapp_length.
  change (String.length banner) with 20.
  change (String.length CRLF) with 2.
  change (String.length "# ") with 2. lia.
Qed.

Lemma blocks_length (c : path) (r : list node) (l : list path) :
  String.length (blocks c r l) =
  list_sum (map (fun f => 52 + String.length (str_abs (c ++ f)) +
                          String.length (content_of r f)) l).
Proof.
  induction l as [|f l IH]; [reflexivity|].
  cbn [blocks map list_sum]. now rewrite sapp_length, block_length, IH.
Qed.

(** X12.  The size of the output of a completed run: for each selected
    path, 52 bytes of banners, ["# "] and line terminators, plus the
    bytes of its absolute path and of its text. *)
Theorem X12_output_size (h : host) (w w' : world) :
  wf (root w) = true ->
  main h w = (Return tt, w') ->
  exists out,
    output w' = Some out /\
    String.length out =
    list_sum (map (fun f => 52 + String.length (str_abs (cwd w ++ f)) +
                            String.length (content_of (root w) f))
                  (selected (root w))).
Proof.
  intros W R. eexists. split; [exact (completed_output h w w' W R)|].
  apply blocks_length.
Qed.

Lemma X12_witness :
  wf (root twins) = true /\
  main posix twins = (Return tt, snd (main posix twins)) /\
  exists out,
    output (snd (main posix twins)) = Some out /\
    String.length out = (52 + 7 + 12) + (52 + 7 + 12).
Proof.
  assert (W : wf (root twins) = true) by (vm_compute; reflexivity).
  assert (R : main posix twins = (Return tt, snd (main posix twins)))
    by (vm_compute; reflexivity).
  split; [exact W|]. split; [exact R|].
  destruct (X12_output_size posix twins _ W R) as [out [O L]].
  exists out. split; [exact O|]. rewrite L. vm_compute. reflexivity.
Defined.

(** *** Names that cannot be encoded *)

Lemma ascii_not_cont (c : ascii) : (code c <? 128)%N = true -> is_cont c = false.
Proof.
  intros H. unfold is_cont. apply N.ltb_lt in H.
  destruct (128 <=? code c)%N eqn:E; [|reflexivity].
  apply N.leb_le in E. lia.
Qed.

Lemma ascii_not_second_of_3 (c0 c : ascii) :
  (code c <? 128)%N = true -> second_of_3 c0 c = false.
Proof. intros H. unfold second_of_3. now rewrite (ascii_not_cont c H). Qed.

Lemma ascii_not_second_of_4 (c0 c : ascii) :
  (code c <? 128)%N = true -> second_of_4 c0 c = false.
Proof. intros H. unfold second_of_4. now rewrite (ascii_not_cont c H). Qed.

(** A text followed by a single-byte character is well-formed exactly
    when both sides of the cut are: no sequence runs across it. *)
Lemma utf8_valid_cut (c : ascii) (a b : string) :
  (code c <? 128)%N = true ->
  utf8_valid (a ++ String c b) = utf8_valid a && utf8_valid (String c b).
Proof.
  intros Hc.
  pose proof (ascii_not_cont c Hc) as NC.
  remember (utf8_valid (String c b)) as T eqn:ET.
  induction a as [a IH] using strong_string_ind.
  destruct a as [|c0 r0]; [now rewrite ET|].
  cbn [append utf8_valid].
  destruct (code c0 <? 128)%N; [apply IH; simpl; lia|].
  destruct (code c0 <? 194)%N; [reflexivity|].
  destruct (code c0 <? 224)%N.
  { destruct r0 as [|c1 r1]; cbn [append].
    - now rewrite NC.
    - rewrite IH by (simpl; lia). now rewrite andb_assoc. }
  destruct (code c0 <? 240)%N.
  { destruct r0 as [|c1 [|c2 r2]]; cbn [append].
    - rewrite (ascii_not_second_of_3 c0 c Hc). now destruct b.
    - now rewrite NC, andb_false_r.
    - rewrite IH by (simpl; lia). now rewrite !andb_assoc. }
  destruct (code c0 <? 245)%N; [|reflexivity].
  destruct r0 as [|c1 [|c2 [|c3 r3]]]; cbn [append].
  - rewrite (ascii_not_second_of_4 c0 c Hc). destruct b as [|b1 [|b2 b3]]; reflexivity.
  - rewrite NC, andb_false_r. now destruct b.
  - now rewrite NC, andb_false_r.
  - rewrite IH by (simpl; lia). now rewrite !andb_assoc.
Qed.

Lemma join_valid_iff (p : path) : utf8_valid (join "/" p) = forallb utf8_valid p.
Proof.
  induction p as [|x p IH]; [reflexivity|].
  destruct p as [|y p]; [cbn [join forallb]; now rewrite andb_true_r|].
  change (join "/" (x :: y :: p)) with (x ++ String "/" (join "/" (y :: p)))%string.
  rewrite (utf8_valid_cut "/" x _ eq_refl).
  change (utf8_valid (String "/" (join "/" (y :: p)))) with (utf8_valid (join "/" (y :: p))).
  now rewrite IH.
Qed.

(** The path line can be encoded exactly when every name in the
    resolved path is well-formed UTF-8. *)
Lemma path_line_valid_iff (c f : path) :
  utf8_valid (path_line c f) = forallb utf8_valid (c ++ f).
Proof.
  unfold path_line, str_abs.
  change ("# " ++ ("/" ++ join "/" (c ++ f)) ++ CRLF)%string
    with (String "#" (String " " (String "/" (join "/" (c ++ f) ++ String CR (String LF ""))))).
  change (utf8_valid (String "#" (String " " (String "/"
            (join "/" (c ++ f) ++ String CR (String LF ""))))))
    with (utf8_valid (join "/" (c ++ f) ++ String CR (String LF ""))).
  rewrite (utf8_valid_cut CR _ _ eq_refl), join_valid_iff.
  change (utf8_valid (String CR (String LF ""))) with true. now rewrite andb_true_r.
Qed.

Lemma emit_refused (c : path) (r : list node) (pre post : list path) (f : path) :
  Forall (readable_file r) pre -> Forall (encodable c) pre ->
  utf8_valid (path_line c f) = false ->
  emit c r (pre ++ f :: post) =
  ((blocks c r pre ++ banner ++ CRLF)%string, Some (UnicodeEncodeError (path_line c f))).
Proof.
  intros F V Vf. induction F as [|g pre Hg Hpre IH]; cbn [app emit blocks].
  - now rewrite Vf.
  - inversion V as [|? ? Vg Vpre]; subst. unfold encodable in Vg.
    now rewrite Vg, (readable_read_at r g Hg), (IH Vpre), sapp_assoc.
Qed.

(** X13.  A selected path with a name that is not well-formed UTF-8
    stops the run at its path line, when the paths before it were
    written in full: the run raises [UnicodeEncodeError],
    [combined.txt] holds the blocks of the paths before it followed by
    the first banner line of its block, and the second message is not
    printed.  The file itself is not read. *)
Theorem X13_undecodable_name_stops_the_run
        (h : host) (w : world) (pre post : list path) (f : path) (bad : string) :
  wf (root w) = true ->
  dir_exists (root w) OUTPUT = false ->
  selected (root w) = pre ++ f :: post ->
  Forall (readable_file (root w)) pre ->
  (forall n, In n (cwd w) -> utf8_valid n = true) ->
  (forall g n, In g pre -> In n g -> utf8_valid n = true) ->
  In bad f -> utf8_valid bad = false ->
  fst (main h w) = Raise (UnicodeEncodeError (path_line (cwd w) f)) /\
  output (snd (main h w)) =
    Some (blocks (cwd w) (root w) pre ++ banner ++ CRLF)%string /\
  console (snd (main h w)) = console w ++ [msg_start].
Proof.
  intros W D E F Hc Hl Hb Vb.
  assert (Vpre : Forall (encodable (cwd w)) pre) by now apply names_encodable.
  assert (Vf : utf8_valid (path_line (cwd w) f) = false).
  { rewrite path_line_valid_iff.
    destruct (forallb utf8_valid (cwd w ++ f)) eqn:A; [|reflexivity].
    rewrite forallb_forall in A.
    rewrite (A bad) in Vb by (apply in_or_app; now right). discriminate. }
  rewrite (main_wf h w W D), E, (emit_refused _ _ _ _ _ F Vpre Vf).
  cbn [fst snd finish lines_after]. split; [reflexivity|].
  split; [apply output_during, sources_absent | reflexivity].
Qed.

Lemma X13_witness :
  wf (root odd_name) = true /\
  dir_exists (root odd_name) OUTPUT = false /\
  selected (root odd_name) = [["a.rs"]] ++ [String "255"%char ".rs"] :: [["c.rs"]] /\
  Forall (readable_file (root odd_name)) [["a.rs"]] /\
  (forall n, In n (cwd odd_name) -> utf8_valid n = true) /\
  (forall g n, In g [["a.rs"]] -> In n g -> utf8_valid n = true) /\
  In (String "255"%char ".rs") [String "255"%char ".rs"] /\
  utf8_valid (String "255"%char ".rs") = false /\
  fst (main posix odd_name) =
    Raise (UnicodeEncodeError (path_line (cwd odd_name) [String "255"%char ".rs"])) /\
  output (snd (main posix odd_name)) =
    Some (blocks (cwd odd_name) (root odd_name) [["a.rs"]] ++ banner ++ CRLF)%string /\
  console (snd (main posix odd_name)) = console odd_name ++ [msg_start].
Proof.
  assert (W : wf (root odd_name) = true) by (vm_compute; reflexivity).
  assert (D : dir_exists (root odd_name) OUTPUT = false) by (vm_compute; reflexivity).
  assert (E : selected (root odd_name) =
              [["a.rs"]] ++ [String "255"%char ".rs"] :: [["c.rs"]])
    by (vm_compute; reflexivity).
  assert (F : Forall (readable_file (root odd_name)) [["a.rs"]]).
  { constructor; [|constructor]. exists "a.rs", "x". vm_compute. reflexivity. }
  assert (Hc : forall n, In n (cwd odd_name) -> utf8_valid n = true).
  { intros n [<-|[]]. reflexivity. }
  assert (Hl : forall g n, In g [["a.rs"]] -> In n g -> utf8_valid n = true).
  { intros g n [<-|[]] [<-|[]]. reflexivity. }
  assert (Hb : In (String "255"%char ".rs") [String "255"%char ".rs"]) by now left.
  assert (Vb : utf8_valid (String "255"%char ".rs") = false) by (vm_compute; reflexivity).
  split; [exact W|]. split; [exact D|]. split; [exact E|]. split; [exact F|].
  split; [exact Hc|]. split; [exact Hl|]. split; [exact Hb|]. split; [exact Vb|].
  exact (X13_undecodable_name_stops_the_run posix odd_name _ _ _ _ W D E F Hc Hl Hb Vb).
Defined.

(** *** Directories that are not accessible *)





End Extras.
